(** * The STS [.asc] translation script of pycroscopy, embedded in Rocq

    Source: [examples/plot_translator_tutorial.py].  The script reads an
    Omicron [.asc] text file into a list of lines, parses fourteen header
    lines into a dictionary of typed parameters, reads a grid of 32-bit
    floats from the lines that follow a header of 403 lines, and builds the
    bias axis with [numpy.linspace].

    Python values are embedded as follows.
    - [str] is [string]; a character is a code point below 256 (the format
      is ASCII).
    - [float] is IEEE binary64, [numpy.float32] is IEEE binary32, both as
      [spec_float] with the operations of [SpecFloat].
    - [int] is [Z].
    - [dict] is a [gmap] with string keys; a [list] is a [list].
    - a raised exception is the [Raise] branch of [result]; an exception is
      kept by its class (and the key, for [KeyError]).
    - memory is taken to be there: no [MemoryError] is modelled. *)

From Stdlib Require Import ZArith QArith Ascii String List Lia.
From Stdlib Require Import Floats.SpecFloat.
From stdpp Require Import base option list gmap strings.

Local Open Scope Z_scope.

(** ** Exceptions *)

Inductive exn : Type :=
  | IndexError
  | KeyError (key : string)
  | ValueError
  | OverflowError.

Inductive result (A : Type) : Type :=
  | Ok (a : A)
  | Raise (e : exn).

Arguments Ok {A} a.
Arguments Raise {A} e.

#[global] Instance result_ret : MRet result := fun _ a => Ok a.
#[global] Instance result_bind : MBind result :=
  fun _ _ f m => match m with Ok a => f a | Raise e => Raise e end.

Definition is_ok {A} (r : result A) : bool :=
  match r with Ok _ => true | Raise _ => false end.

(** [for x in xs: acc = f(acc, x)], stopping at the first exception. *)
Fixpoint for_each {A B} (f : B -> A -> result B) (xs : list A) (acc : B)
  : result B :=
  match xs with
  | [] => Ok acc
  | x :: rest =>
      match f acc x with
      | Ok acc' => for_each f rest acc'
      | Raise e => Raise e
      end
  end.

(** ** Python strings *)

Module Py.

Definition tab : ascii := "009"%char.
Definition newline : ascii := "010"%char.

Definition code (c : ascii) : N := N_of_ascii c.

(** [str.isspace] on one character, for code points below 256. *)
Definition isspace (c : ascii) : bool :=
  let n := code c in
  ((9 <=? n) && (n <=? 13) || (28 <=? n) && (n <=? 32)
   || (n =? 133) || (n =? 160))%N.

Fixpoint lstrip (s : string) : string :=
  match s with
  | EmptyString => EmptyString
  | String c s' => if isspace c then lstrip s' else s
  end.

Fixpoint rstrip (s : string) : string :=
  match s with
  | EmptyString => EmptyString
  | String c s' =>
      match rstrip s' with
      | EmptyString => if isspace c then EmptyString else String c EmptyString
      | r => String c r
      end
  end.

(** [s.strip()] *)
Definition strip (s : string) : string := rstrip (lstrip s).

(** [s.split(sep)] for a separator of one character. *)
Fixpoint split (sep : ascii) (s : string) : list string :=
  match s with
  | EmptyString => [EmptyString]
  | String c s' =>
      if Ascii.eqb c sep then EmptyString :: split sep s'
      else match split sep s' with
           | h :: t => String c h :: t
           | [] => [String c EmptyString]
           end
  end.

(** [sep.join(parts)] for a separator of one character. *)
Fixpoint join (sep : ascii) (parts : list string) : string :=
  match parts with
  | [] => EmptyString
  | [p] => p
  | p :: rest => p +:+ String sep (join sep rest)
  end.

(** [s.replace(old, new)]: the occurrences of [old] are found from the
    left and do not overlap.  [skip] counts the characters of a matched
    occurrence that are still to be passed over. *)
Fixpoint replace_from (old new : string) (skip : nat) (s : string) : string :=
  match s with
  | EmptyString => EmptyString
  | String c s' =>
      match skip with
      | S k => replace_from old new k s'
      | O =>
          if String.prefix old s
          then new +:+ replace_from old new (Nat.pred (String.length old)) s'
          else String c (replace_from old new 0 s')
      end
  end.

(** With an empty [old], Python puts [new] around every character. *)
Fixpoint interleave (new s : string) : string :=
  match s with
  | EmptyString => new
  | String c s' => new +:+ String c (interleave new s')
  end.

Definition replace (old new s : string) : string :=
  match old with
  | EmptyString => interleave new s
  | _ => replace_from old new 0 s
  end.

(** [c in s] *)
Fixpoint contains (c : ascii) (s : string) : bool :=
  match s with
  | EmptyString => false
  | String c' s' => Ascii.eqb c' c || contains c s'
  end.

(** [xs[:-1]] *)
Definition drop_last {A} (xs : list A) : list A := removelast xs.

(** [xs[lo:hi]] for [0 <= lo <= hi]; a slice never raises. *)
Definition slice {A} (lo hi : nat) (xs : list A) : list A :=
  take (hi - lo)%nat (drop lo xs).

End Py.

(** ** Python floats

    [float(s)] follows CPython: [PyFloat_FromString] maps non-ASCII
    whitespace to a space, checks and removes underscores, strips C
    whitespace at both ends, and hands the rest to [_Py_parse_inf_or_nan]
    and then to [_Py_dg_strtod], which rounds the decimal to the nearest
    binary64 (ties to even) and gives an infinity on overflow.  The size
    limits of [dtoa.c] (more than 10^9 digits) are not modelled. *)

Module Float.

Definition prec64 : Z := 53.
Definition emax64 : Z := 1024.
Definition prec32 : Z := 24.
Definition emax32 : Z := 128.

Definition isdigit (c : ascii) : bool :=
  let n := Py.code c in ((48 <=? n) && (n <=? 57))%N.

Definition digit_value (c : ascii) : Z := Z.of_N (Py.code c) - 48.

(** [Py_ISSPACE] *)
Definition c_isspace (c : ascii) : bool :=
  let n := Py.code c in ((9 <=? n) && (n <=? 13) || (n =? 32))%N.

(** [Py_TOLOWER] *)
Definition tolower (c : ascii) : ascii :=
  let n := Py.code c in
  if ((65 <=? n) && (n <=? 90))%N then ascii_of_N (n + 32) else c.

Fixpoint lower (s : string) : string :=
  match s with
  | EmptyString => EmptyString
  | String c s' => String (tolower c) (lower s')
  end.

(** [_PyUnicode_TransformDecimalAndSpaceToASCII], below code point 256:
    a non-ASCII space becomes a space, any other non-ASCII character
    becomes a question mark, which no literal contains. *)
Definition to_ascii_char (c : ascii) : ascii :=
  if (Py.code c <? 128)%N then c
  else if Py.isspace c then " "%char else "?"%char.

Fixpoint to_ascii (s : string) : string :=
  match s with
  | EmptyString => EmptyString
  | String c s' => String (to_ascii_char c) (to_ascii s')
  end.

(** [_Py_string_to_number_with_underscores]: an underscore is allowed
    only between two digits. [prev] is the previous character. *)
Fixpoint remove_underscores (prev : ascii) (s : string) : option string :=
  match s with
  | EmptyString => if Ascii.eqb prev "_" then None else Some EmptyString
  | String c s' =>
      if Ascii.eqb c "_" then
        if isdigit prev then remove_underscores c s' else None
      else if Ascii.eqb prev "_" && negb (isdigit c) then None
      else String c <$> remove_underscores c s'
  end.

Fixpoint c_lstrip (s : string) : string :=
  match s with
  | EmptyString => EmptyString
  | String c s' => if c_isspace c then c_lstrip s' else s
  end.

Fixpoint c_rstrip (s : string) : string :=
  match s with
  | EmptyString => EmptyString
  | String c s' =>
      match c_rstrip s' with
      | EmptyString => if c_isspace c then EmptyString else String c EmptyString
      | r => String c r
      end
  end.

Definition take_sign (s : string) : bool * string :=
  match s with
  | String c r =>
      if Ascii.eqb c "-" then (true, r)
      else if Ascii.eqb c "+" then (false, r)
      else (false, s)
  | EmptyString => (false, s)
  end.

(** The longest prefix of digits, and what follows it. *)
Fixpoint span_digits (s : string) : string * string :=
  match s with
  | EmptyString => (EmptyString, EmptyString)
  | String c s' =>
      if isdigit c
      then let '(d, r) := span_digits s' in (String c d, r)
      else (EmptyString, s)
  end.

Fixpoint digits_value (acc : Z) (s : string) : Z :=
  match s with
  | EmptyString => acc
  | String c s' => digits_value (10 * acc + digit_value c) s'
  end.

(** [_Py_parse_inf_or_nan], when it has to consume the whole string. *)
Definition parse_inf_or_nan (s : string) : option spec_float :=
  let '(neg, r) := take_sign s in
  let r := lower r in
  if String.eqb r "inf" || String.eqb r "infinity" then Some (S754_infinity neg)
  else if String.eqb r "nan" then Some S754_nan
  else None.

(** The decimal literal of [_Py_dg_strtod], when it has to consume the
    whole string: sign, digits, point, digits, exponent.  The result is
    the sign, the digits read as one integer, and the power of ten. *)
Definition parse_decimal (s : string) : option (bool * Z * Z) :=
  let '(neg, r) := take_sign s in
  let '(ip, r) := span_digits r in
  let '(fp, r) :=
    match r with
    | String c r' => if Ascii.eqb c "." then span_digits r' else (EmptyString, r)
    | EmptyString => (EmptyString, r)
    end in
  let m := digits_value 0 (ip +:+ fp) in
  let fraclen := Z.of_nat (String.length fp) in
  if (String.length ip + String.length fp =? 0)%nat then None
  else
    match r with
    | EmptyString => Some (neg, m, - fraclen)
    | String c r' =>
        if Ascii.eqb c "e" || Ascii.eqb c "E" then
          let '(eneg, r'') := take_sign r' in
          let '(ed, rest) := span_digits r'' in
          match ed, rest with
          | String _ _, EmptyString =>
              Some (neg, m, cond_Zopp eneg (digits_value 0 ed) - fraclen)
          | _, _ => None
          end
        else None
    end.

(** The binary64 nearest to [m * 10 ^ dexp], ties to even. *)
Definition of_decimal (neg : bool) (m dexp : Z) : spec_float :=
  match m with
  | Z0 => S754_zero neg
  | _ =>
      let num := m * 10 ^ Z.max dexp 0 in
      let den := 10 ^ Z.max (- dexp) 0 in
      let '(q, e, l) := SFdiv_core_binary prec64 emax64 num 0 den 0 in
      binary_round_aux prec64 emax64 neg q e l
  end.

(** [float(s)] for a string [s]; [None] stands for [ValueError]. *)
Definition of_string (s : string) : option spec_float :=
  match remove_underscores "000" (to_ascii s) with
  | None => None
  | Some t =>
      let t := c_rstrip (c_lstrip t) in
      match parse_inf_or_nan t with
      | Some f => Some f
      | None =>
          match parse_decimal t with
          | Some (neg, m, dexp) => Some (of_decimal neg m dexp)
          | None => None
          end
      end
  end.

(** [float(n)] for an integer in the range of binary64. *)
Definition of_Z (n : Z) : spec_float := of_decimal (n <? 0) (Z.abs n) 0.

(** [x % 1 == 0] on a float. [float_rem] computes [fmod(x, 1.0)], which is
    exact, and when that is not zero it may add 1.0 to it, which does not
    give zero: the comparison holds when [fmod(x, 1.0)] is zero, and it
    fails on an infinity and on a NaN, whose remainder is a NaN. *)
Definition mod1_is_zero (x : spec_float) : bool :=
  match x with
  | S754_zero _ => true
  | S754_finite _ m e => if 0 <=? e then true else Z.pos m mod 2 ^ (- e) =? 0
  | S754_infinity _ | S754_nan => false
  end.

(** [int(x)] on a float: truncation towards zero. *)
Definition to_int (x : spec_float) : result Z :=
  match x with
  | S754_zero _ => Ok 0
  | S754_finite s m e =>
      Ok (cond_Zopp s (if 0 <=? e then Z.pos m * 2 ^ e else Z.pos m / 2 ^ (- e)))
  | S754_infinity _ => Raise OverflowError
  | S754_nan => Raise ValueError
  end.

(** The C cast of a double to a float, as [numpy] stores a [float32]. *)
Definition to_single (x : spec_float) : spec_float :=
  match x with
  | S754_finite s m e => binary_round prec32 emax32 s m e
  | _ => x
  end.

(** The rational number a finite float stands for. *)
Definition to_Q (x : spec_float) : option Q :=
  match x with
  | S754_zero _ => Some 0%Q
  | S754_finite s m e =>
      Some (if 0 <=? e then inject_Z (cond_Zopp s (Z.pos m * 2 ^ e))
            else Qmake (cond_Zopp s (Z.pos m)) (Z.to_pos (2 ^ (- e))))
  | S754_infinity _ | S754_nan => None
  end.

End Float.

(** ** Values of the parameter dictionary *)

Inductive value : Type :=
  | PyInt (n : Z)
  | PyFloat (x : spec_float)
  | PyStr (s : string).

(** [int(s)] for a string, in base ten: optional sign, digits, underscores
    between digits, whitespace around.  (The limit on the number of digits
    of recent Python versions is not modelled.) *)
Definition int_of_string (s : string) : result Z :=
  match Float.remove_underscores "000" (Float.to_ascii s) with
  | None => Raise ValueError
  | Some t =>
      let '(neg, r) := Float.take_sign (Float.c_rstrip (Float.c_lstrip t)) in
      let '(d, rest) := Float.span_digits r in
      match d, rest with
      | String _ _, EmptyString => Ok (cond_Zopp neg (Float.digits_value 0 d))
      | _, _ => Raise ValueError
      end
  end.

(** [int(v)] *)
Definition py_int (v : value) : result Z :=
  match v with
  | PyInt n => Ok n
  | PyFloat x => Float.to_int x
  | PyStr s => int_of_string s
  end.

(** [d[key]] *)
Definition getitem (d : gmap string value) (key : string) : result value :=
  match d !! key with
  | Some v => Ok v
  | None => Raise (KeyError key)
  end.

(** ** 3. Read the parameters (lines 137 to 150 of the script) *)

(** The [try] block: [float(test)], then [int(test)] when [test % 1 == 0];
    a [ValueError] of either leaves [test] as it is. *)
Definition coerce (test : string) : result value :=
  match Float.of_string test with
  | None => Ok (PyStr test)
  | Some x =>
      if Float.mod1_is_zero x then
        match Float.to_int x with
        | Ok n => Ok (PyInt n)
        | Raise ValueError => Ok (PyFloat x)
        | Raise e => Raise e
        end
      else Ok (PyFloat x)
  end.

(** [line.replace('# ', '').replace('\n', '')] *)
Definition clean_header_line (line : string) : string :=
  let line := Py.replace "# " "" line in
  Py.replace (String Py.newline EmptyString) "" line.

(** [temp = line.split('=')] *)
Definition split_header_line (line : string) : list string :=
  Py.split "=" (clean_header_line line).

(** One pass through the body of the loop over the header lines, up to the
    assignment: the key and the value it is about to store. *)
Definition header_entry (line : string) : result (string * value) :=
  let temp := split_header_line line in
  match temp !! 1%nat with
  | None => Raise IndexError
  | Some t1 =>
      test ← coerce (Py.strip t1);
      match temp !! 0%nat with
      | None => Raise IndexError
      | Some t0 => Ok (Py.strip t0, test)
      end
  end.

(** [parm_dict[temp[0].strip()] = test] *)
Definition header_step (parm_dict : gmap string value) (line : string)
  : result (gmap string value) :=
  '(key, test) ← header_entry line;
  Ok (<[key := test]> parm_dict).

Definition header_lines (string_lines : list string) : list string :=
  Py.slice 3 17 string_lines.

Definition parse_header (string_lines : list string)
  : result (gmap string value) :=
  for_each header_step (header_lines string_lines) ∅.

(** ** 3.b Read the data (lines 173 to 180 of the script) *)

Definition num_headers : nat := 403.

(** [xs[i]] for [0 <= i] *)
Definition getline (xs : list string) (i : nat) : result string :=
  match xs !! i with
  | Some x => Ok x
  | None => Raise IndexError
  end.

(** One element of [np.array(tokens, dtype=np.float32)]: [float(token)]
    cast to a single. *)
Definition float32_of_string (token : string) : result spec_float :=
  match Float.of_string token with
  | Some x => Ok (Float.to_single x)
  | None => Raise ValueError
  end.

Fixpoint np_array_float32 (tokens : list string) : result (list spec_float) :=
  match tokens with
  | [] => Ok []
  | t :: rest =>
      x ← float32_of_string t;
      xs ← np_array_float32 rest;
      Ok (x :: xs)
  end.

(** The largest [npy_intp], on a platform with 64-bit pointers. *)
Definition max_intp : Z := 2 ^ 63 - 1.

(** The size of a [np.float32] in bytes. *)
Definition itemsize : Z := 4.

(** The shapes [numpy] makes an array of: no dimension is negative, each
    fits an [npy_intp], and so does the size of the array in bytes, in
    which a dimension of zero counts as one (the loop over the dimensions
    in [PyArray_NewFromDescr] skips it). *)
Definition shape_allowed (rows cols : Z) : bool :=
  (0 <=? rows) && (0 <=? cols)
  && (rows <=? max_intp) && (cols <=? max_intp)
  && (itemsize * (if rows =? 0 then 1 else rows)
               * (if cols =? 0 then 1 else cols) <=? max_intp).

(** [np.zeros(shape=(rows, cols), dtype=np.float32)].  Every shape that is
    not allowed raises [ValueError].  Memory is taken to be there: the
    [MemoryError] of an allocation that the machine refuses is no part of
    the model, here as for every other object the script builds. *)
Definition np_zeros (rows cols : Z) : result (list (list spec_float)) :=
  if shape_allowed rows cols
  then Ok (replicate (Z.to_nat rows) (replicate (Z.to_nat cols) (S754_zero false)))
  else Raise ValueError.

(** [a[i] = v] for a two-dimensional [a] and a one-dimensional [v]: [v]
    must have the length of the row, or length one, in which case
    broadcasting fills the row with its element. *)
Definition set_row (a : list (list spec_float)) (i : nat) (v : list spec_float)
  : result (list (list spec_float)) :=
  match a !! i with
  | None => Raise IndexError
  | Some row =>
      if (length v =? length row)%nat then Ok (<[i := v]> a)
      else match v with
           | [x] => Ok (<[i := replicate (length row) x]> a)
           | _ => Raise ValueError
           end
  end.

(** [this_line.split('\t')[:-1]] *)
Definition string_spectrum (this_line : string) : list string :=
  Py.drop_last (Py.split Py.tab this_line).

(** The body of the loop over [range(num_pos)]. *)
Definition read_row (string_lines : list string)
    (raw_data_2d : list (list spec_float)) (line_ind : nat)
  : result (list (list spec_float)) :=
  this_line ← getline string_lines (num_headers + line_ind);
  arr ← np_array_float32 (string_spectrum this_line);
  set_row raw_data_2d line_ind arr.

Definition read_grid (string_lines : list string) (num_pos spectra_length : Z)
  : result (list (list spec_float)) :=
  raw_data_2d ← np_zeros num_pos spectra_length;
  for_each (read_row string_lines) (seq 0 (Z.to_nat num_pos)) raw_data_2d.

(** ** 4.a The bias axis (line 192 of the script)

    [numpy.linspace(start, stop, num)] with [endpoint=True].  The function
    is written over its arithmetic, so that what holds of it in any
    arithmetic is proved once; [numpy] runs it in binary64, which is the
    instance the script uses. *)

Section Linspace.

Variable F : Type.
Variable of_nat : nat -> F.
Variables add sub mul div : F -> F -> F.
Variable is_zero : F -> bool.

Definition linspace (start stop : F) (num : Z) : result (list F) :=
  if num <? 0 then Raise ValueError
  else
    let n := Z.to_nat num in
    let y := map of_nat (seq 0 n) in
    let delta := sub stop start in
    let y :=
      if 1 <? num then
        let step := div delta (of_nat (n - 1)) in
        if is_zero step
        then map (fun v => mul (div v (of_nat (n - 1))) delta) y
        else map (fun v => mul v step) y
      else map (fun v => mul v delta) y in
    let y := map (fun v => add v start) y in
    Ok (if 1 <? num then <[(n - 1)%nat := stop]> y else y).

End Linspace.

Definition linspace_b64 : spec_float -> spec_float -> Z -> result (list spec_float) :=
  linspace spec_float (fun n => Float.of_Z (Z.of_nat n))
    (SFadd Float.prec64 Float.emax64) (SFsub Float.prec64 Float.emax64)
    (SFmul Float.prec64 Float.emax64) (SFdiv Float.prec64 Float.emax64)
    (fun x => SFeqb x (S754_zero false)).

(** [np.linspace(-1 * max_v, 1 * max_v, spectra_length)], in binary64, for
    a [max_v] that is an integer, as the one of the script. *)
Definition volt_vec_b64 (max_v : Z) (spectra_length : Z)
  : result (list spec_float) :=
  linspace_b64 (Float.of_Z (-1 * max_v)) (Float.of_Z (1 * max_v)) spectra_length.

(** Line 186. *)
Definition max_v : Z := 1.

(** ** 2. Loading the data (lines 127 to 129 of the script)

    [open(path, 'r')] reads text with universal newlines; [readlines] keeps
    the line terminators. *)

Definition carriage_return : ascii := "013"%char.

Fixpoint universal_newlines (s : string) : string :=
  match s with
  | EmptyString => EmptyString
  | String c s' =>
      if Ascii.eqb c carriage_return then
        match s' with
        | String c' s'' =>
            if Ascii.eqb c' Py.newline
            then String Py.newline (universal_newlines s'')
            else String Py.newline (universal_newlines s')
        | EmptyString => String Py.newline EmptyString
        end
      else String c (universal_newlines s')
  end.

Fixpoint keepends (parts : list string) : list string :=
  match parts with
  | [] => []
  | [p] => match p with EmptyString => [] | _ => [p] end
  | p :: rest => (p +:+ String Py.newline EmptyString) :: keepends rest
  end.

Definition readlines (text : string) : list string :=
  keepends (Py.split Py.newline (universal_newlines text)).

(** ** The position axis *)

(** Modelled from the spec: the Position Axis, which the source obtains from
    [px.io.NumpyTranslator.translate]; the translator is not among the
    sources.  The spec (4.3) gives, for each linear index [i],
    [row = i / num_cols], [col = i % num_cols],
    [x = col * scan_width / (num_cols - 1)] and
    [y = row * scan_height / (num_rows - 1)], each zero when the
    corresponding count is 1. *)
Definition position_values (num_rows num_cols : Z) (scan_width scan_height : Q)
  : list (Q * Q) :=
  map (fun i : nat =>
         let row := Z.of_nat i / num_cols in
         let col := Z.of_nat i mod num_cols in
         (if num_cols =? 1 then 0%Q
          else (inject_Z col * scan_width / inject_Z (num_cols - 1))%Q,
          if num_rows =? 1 then 0%Q
          else (inject_Z row * scan_height / inject_Z (num_rows - 1))%Q))
      (seq 0 (Z.to_nat (num_rows * num_cols))).

Definition scan_height : Q := 100.
Definition scan_width : Q := 200.

(** ** The script, stage by stage *)

(** What the script has computed when it calls the translator. *)
Record translation : Type := {
  parm_dict : gmap string value;
  num_rows : Z;
  num_cols : Z;
  spectra_length : Z;
  raw_data_2d : list (list spec_float);
  spec_values : list spec_float
}.

(** Lines 162 to 165. *)
Definition read_dimensions (d : gmap string value) : result (Z * Z * Z) :=
  y ← getitem d "y-pixels";
  rows ← py_int y;
  x ← getitem d "x-pixels";
  cols ← py_int x;
  z ← getitem d "z-points";
  len ← py_int z;
  Ok (rows, cols, len).

Definition translate_lines (string_lines : list string) : result translation :=
  d ← parse_header string_lines;
  '(rows, cols, len) ← read_dimensions d;
  raw ← read_grid string_lines (rows * cols) len;
  axis ← volt_vec_b64 max_v len;
  Ok {| parm_dict := d; num_rows := rows; num_cols := cols;
        spectra_length := len; raw_data_2d := raw; spec_values := axis |}.

Definition translate (text : string) : result translation :=
  translate_lines (readlines text).

(** The three datasets of the claims on the output. *)
Definition Raw_Data (t : translation) : list (list spec_float) := raw_data_2d t.
Definition Spectroscopic_Values (t : translation) : list spec_float :=
  spec_values t.
Definition Position_Values (t : translation) : list (Q * Q) :=
  position_values (num_rows t) (num_cols t) scan_width scan_height.

(** The script as a sequence of stages: each statement group takes the
    state of the run to the next one, or to [Failed]. *)
Inductive stage : Type :=
  | NotStarted (text : string)
  | Loaded (string_lines : list string)
  | ParsedHeader (string_lines : list string) (d : gmap string value)
  | ParsedGrid (d : gmap string value) (rows cols len : Z)
               (raw : list (list spec_float))
  | BuiltAxes (t : translation)
  | Failed (e : exn).

Inductive step : stage -> stage -> Prop :=
  | step_load text :
      step (NotStarted text) (Loaded (readlines text))
  | step_header_ok ls d :
      parse_header ls = Ok d ->
      step (Loaded ls) (ParsedHeader ls d)
  | step_header_raise ls e :
      parse_header ls = Raise e ->
      step (Loaded ls) (Failed e)
  | step_dimensions_raise ls d e :
      read_dimensions d = Raise e ->
      step (ParsedHeader ls d) (Failed e)
  | step_grid_ok ls d rows cols len raw :
      read_dimensions d = Ok (rows, cols, len) ->
      read_grid ls (rows * cols) len = Ok raw ->
      step (ParsedHeader ls d) (ParsedGrid d rows cols len raw)
  | step_grid_raise ls d rows cols len e :
      read_dimensions d = Ok (rows, cols, len) ->
      read_grid ls (rows * cols) len = Raise e ->
      step (ParsedHeader ls d) (Failed e)
  | step_axes_ok d rows cols len raw axis :
      volt_vec_b64 max_v len = Ok axis ->
      step (ParsedGrid d rows cols len raw)
           (BuiltAxes {| parm_dict := d; num_rows := rows; num_cols := cols;
                         spectra_length := len; raw_data_2d := raw;
                         spec_values := axis |})
  | step_axes_raise d rows cols len raw e :
      volt_vec_b64 max_v len = Raise e ->
      step (ParsedGrid d rows cols len raw) (Failed e).

Inductive steps : stage -> stage -> Prop :=
  | steps_refl s : steps s s
  | steps_next s1 s2 s3 : step s1 s2 -> steps s2 s3 -> steps s1 s3.

Definition final (s : stage) : Prop :=
  match s with
  | BuiltAxes _ | Failed _ => True
  | _ => False
  end.

(** The state in which the function [translate] leaves the script. *)
Definition outcome (text : string) : stage :=
  match translate text with
  | Ok t => BuiltAxes t
  | Raise e => Failed e
  end.

(** A run of the script on a source text. *)
Definition runs (text : string) (s : stage) : Prop :=
  steps (NotStarted text) s /\ final s.

(** ** Notions the statements below use *)

(** A header line as the format has it: [# key = value] and a line feed. *)
Definition header_line (key val : string) : string :=
  "# " +:+ key +:+ " = " +:+ val +:+ String Py.newline EmptyString.

(** Text with no comment marker, no equals sign and no line feed. *)
Definition plain (s : string) : bool :=
  negb (Py.contains "#" s) && negb (Py.contains "=" s)
  && negb (Py.contains Py.newline s).

Definition is_integer (q : Q) : Prop := exists n : Z, (q == inject_Z n)%Q.

(** The numeric coercion in the words of the specification: a string that
    does not parse is kept; a float whose fractional part is zero is stored
    as that integer; any other float is stored as a float. *)
Inductive coercion_spec (s : string) : value -> Prop :=
  | coercion_string :
      Float.of_string s = None ->
      coercion_spec s (PyStr s)
  | coercion_integer x q n :
      Float.of_string s = Some x -> Float.to_Q x = Some q ->
      (q == inject_Z n)%Q ->
      coercion_spec s (PyInt n)
  | coercion_fraction x q :
      Float.of_string s = Some x -> Float.to_Q x = Some q ->
      ~ is_integer q ->
      coercion_spec s (PyFloat x)
  | coercion_not_finite x :
      Float.of_string s = Some x -> Float.to_Q x = None ->
      coercion_spec s (PyFloat x).

(** The key of a header line that has an equals sign. *)
Definition header_key (line : string) : option string :=
  match header_entry line with
  | Ok (key, _) => Some key
  | Raise _ => None
  end.

(** A row the grid reader stores: every token but the last is numeric, and
    they are as many as the row is long, or just one. *)
Definition row_accepted (len : nat) (line : string) : bool :=
  match np_array_float32 (string_spectrum line) with
  | Ok arr => (length arr =? len)%nat || (length arr =? 1)%nat
  | Raise _ => false
  end.

(** A row of the format: exactly [len] tokens before the last, all numeric. *)
Definition row_well_formed (len : nat) (line : string) : bool :=
  match np_array_float32 (string_spectrum line) with
  | Ok arr => (length arr =? len)%nat
  | Raise _ => false
  end.

(** [a[i][j]] *)
Definition cell (a : list (list spec_float)) (i j : nat) : option spec_float :=
  match a !! i with
  | Some row => row !! j
  | None => None
  end.






(** An error identifies the position of the offending header line when
    the position can be read off the error: [locate] does the reading. *)
Definition identifies_position (locate : exn -> nat) : Prop :=
  forall (string_lines : list string) (i : nat) (line : string),
    header_lines string_lines !! i = Some line ->
    Py.contains "=" line = false ->
    (forall (j : nat) (line' : string),
        (j < i)%nat -> header_lines string_lines !! j = Some line' ->
        Py.contains "=" line' = true) ->
    exists e : exn, parse_header string_lines = Raise e /\ locate e = i.

(** An array of [rows] rows, each [cols] long. *)
Definition has_shape (rows cols : nat) (a : list (list spec_float)) : Prop :=
  length a = rows /\ Forall (fun row => length row = cols) a.

(** The row the reader stores for an accepted line: the parsed tokens, or
    the single parsed token repeated. *)
Definition stored_row (cols : nat) (line : string) : list spec_float :=
  match np_array_float32 (string_spectrum line) with
  | Ok arr =>
      if (length arr =? cols)%nat then arr
      else match arr with
           | [x] => replicate cols x
           | _ => arr
           end
  | Raise _ => []
  end.

(** The first [i] data rows are there and are accepted. *)
Definition rows_accepted (string_lines : list string) (cols i : nat) : Prop :=
  forall j : nat, (j < i)%nat ->
    exists line : string,
      string_lines !! (num_headers + j)%nat = Some line
      /\ row_accepted cols line = true.



(** ** Sample inputs *)

Definition tab_str : string := String Py.tab EmptyString.
Definition newline_str : string := String Py.newline EmptyString.

(** A data row of the format: every value is followed by a tab, and the
    line ends with a line feed. *)
Definition data_row (values : list string) : string :=
  foldr (fun v rest => v +:+ tab_str +:+ rest) newline_str values.

(** The first 403 lines of a file whose parameters are the given ones. *)
Definition sample_header (y_pixels x_pixels z_points : string) : list string :=
  replicate 3 newline_str
  ++ [header_line "x-pixels" x_pixels; header_line "y-pixels" y_pixels;
      header_line "z-points" z_points]
  ++ replicate 11 (header_line "bias" "0.5")
  ++ replicate 386 newline_str.

(** The text of a small file: one row of two positions, three values each. *)
Definition sample_text : string :=
  foldr String.append EmptyString
    (sample_header "1" "2" "3"
     ++ [data_row ["1"; "2"; "3"]; data_row ["4"; "5"; "6"]]).

(** ** 4.a The name of the translated file (lines 188 to 194 of the script)

    [os.path.split] and [os.path.join] are those of [posixpath]. *)

Module Path.

Definition sep : ascii := "/"%char.

(** [s.rfind(c)]: the index of the last occurrence, -1 when there is none. *)
Fixpoint rfind (c : ascii) (s : string) : Z :=
  match s with
  | EmptyString => -1
  | String a s' =>
      let r := rfind c s' in
      if 0 <=? r then r + 1 else if Ascii.eqb a c then 0 else -1
  end.

(** [s[:n]] for [0 <= n] *)
Fixpoint take (n : nat) (s : string) : string :=
  match n, s with
  | S k, String a s' => String a (take k s')
  | _, _ => EmptyString
  end.

(** [s[n:]] for [0 <= n] *)
Fixpoint drop (n : nat) (s : string) : string :=
  match n, s with
  | S k, String _ s' => drop k s'
  | _, _ => s
  end.

(** [s.rstrip(c)] for one character *)
Fixpoint rstrip_char (c : ascii) (s : string) : string :=
  match s with
  | EmptyString => EmptyString
  | String a s' =>
      match rstrip_char c s' with
      | EmptyString => if Ascii.eqb a c then EmptyString else String a EmptyString
      | r => String a r
      end
  end.

(** [s == sep * len(s)] *)
Fixpoint all_sep (s : string) : bool :=
  match s with
  | EmptyString => true
  | String a s' => Ascii.eqb a sep && all_sep s'
  end.

(** [s.endswith(sep)] *)
Fixpoint ends_with_sep (s : string) : bool :=
  match s with
  | EmptyString => false
  | String a EmptyString => Ascii.eqb a sep
  | String _ s' => ends_with_sep s'
  end.

(** [s.startswith(sep)] *)
Definition starts_with_sep (s : string) : bool :=
  match s with
  | String a _ => Ascii.eqb a sep
  | EmptyString => false
  end.

Definition is_empty (s : string) : bool :=
  match s with
  | EmptyString => true
  | String _ _ => false
  end.

(** [os.path.split(p)] *)
Definition split (p : string) : string * string :=
  let i := Z.to_nat (rfind sep p + 1) in
  let head := take i p in
  let tail := drop i p in
  let head :=
    if negb (is_empty head) && negb (all_sep head)
    then rstrip_char sep head else head in
  (head, tail).

(** [os.path.join(a, b)] *)
Definition join (a b : string) : string :=
  if starts_with_sep b then b
  else if is_empty a || ends_with_sep a then a +:+ b
  else a +:+ String sep b.

End Path.

(** [s[:-n]] for [0 < n] *)
Definition drop_last_chars (n : nat) (s : string) : string :=
  Path.take (String.length s - n) s.

(** Lines 188 to 194: the path of the [.h5] file for a data file. *)
Definition h5_path (data_file_path : string) : string :=
  let '(folder_path, file_name) := Path.split data_file_path in
  let file_name := drop_last_chars 4 file_name +:+ "_" in
  Path.join folder_path (file_name +:+ ".h5").

(** ** Notions of the further properties *)

(** A string with no whitespace at either end. *)
Definition trimmed (s : string) : Prop := Py.strip s = s.

(** A value as the header parser leaves it: a string is trimmed and is not
    a float literal, and a float does not stand for an integer. *)
Definition settled (v : value) : Prop :=
  match v with
  | PyInt _ => True
  | PyFloat x => Float.mod1_is_zero x = false
  | PyStr s => Float.of_string s = None /\ trimmed s
  end.

(** A value [int()] converts. *)
Definition is_number (v : value) : Prop :=
  match v with
  | PyInt _ => True
  | PyFloat x => exists q : Q, Float.to_Q x = Some q
  | PyStr _ => False
  end.

(** The concatenation of the lines of a file. *)
Definition concat_lines (ls : list string) : string :=
  foldr String.append EmptyString ls.

(** * Properties *)

(** ** Strings *)

Lemma append_nil (s : string) : EmptyString +:+ s = s.
Proof. reflexivity. Qed.

Lemma append_cons (c : ascii) (s t : string) :
  String c s +:+ t = String c (s +:+ t).
Proof. reflexivity. Qed.

Lemma append_nil_r (s : string) : s +:+ EmptyString = s.
Proof. induction s as [|c s IH]; [reflexivity|]. rewrite append_cons, IH. reflexivity. Qed.

Lemma append_assoc (s t u : string) : (s +:+ t) +:+ u = s +:+ (t +:+ u).
Proof.
  induction s as [|c s IH]; [reflexivity|].
  rewrite !append_cons, IH. reflexivity.
Qed.

Lemma contains_append (c : ascii) (s t : string) :
  Py.contains c (s +:+ t) = Py.contains c s || Py.contains c t.
Proof.
  induction s as [|a s IH]; [reflexivity|].
  rewrite append_cons. simpl. rewrite IH. apply orb_assoc.
Qed.

Lemma split_not_nil (sep : ascii) (s : string) : Py.split sep s <> [].
Proof.
  destruct s as [|c s]; simpl; [discriminate|].
  destruct (Ascii.eqb c sep); [discriminate|].
  destruct (Py.split sep s); discriminate.
Qed.

Lemma split_without (sep : ascii) (s : string) :
  Py.contains sep s = false -> Py.split sep s = [s].
Proof.
  induction s as [|c s IH]; simpl; [reflexivity|].
  intros H. apply orb_false_iff in H as [Hc Hs].
  rewrite Hc, (IH Hs). reflexivity.
Qed.

Lemma split_append_sep (sep : ascii) (a b : string) :
  Py.contains sep a = false ->
  Py.split sep (a +:+ String sep b) = a :: Py.split sep b.
Proof.
  induction a as [|c a IH]; intros H.
  - rewrite append_nil. simpl. rewrite Ascii.eqb_refl. reflexivity.
  - simpl in H. apply orb_false_iff in H as [Hc Ha].
    rewrite append_cons. simpl. rewrite Hc, (IH Ha). reflexivity.
Qed.

Lemma split_join (sep : ascii) (parts : list string) :
  parts <> [] ->
  Forall (fun p => Py.contains sep p = false) parts ->
  Py.split sep (Py.join sep parts) = parts.
Proof.
  induction parts as [|p rest IH]; intros Hne Hall; [congruence|].
  inversion Hall as [|? ? Hp Hrest]; subst.
  destruct rest as [|q rest].
  - simpl. apply split_without, Hp.
  - change (Py.join sep (p :: q :: rest))
      with (p +:+ String sep (Py.join sep (q :: rest))).
    rewrite split_append_sep by exact Hp.
    f_equal. apply IH; [discriminate | exact Hrest].
Qed.

Lemma split_pieces (sep : ascii) (s : string) :
  Forall (fun p => Py.contains sep p = false) (Py.split sep s).
Proof.
  induction s as [|c s IH]; simpl; [repeat constructor|].
  destruct (Ascii.eqb c sep) eqn:E; [constructor; [reflexivity | exact IH]|].
  destruct (Py.split sep s) as [|h t]; [repeat constructor; simpl; rewrite E; reflexivity|].
  inversion IH as [|? ? Hh Ht]; subst.
  constructor; [simpl; rewrite E, Hh; reflexivity | exact Ht].
Qed.

Lemma join_split (sep : ascii) (s : string) :
  Py.join sep (Py.split sep s) = s.
Proof.
  induction s as [|c s IH]; simpl; [reflexivity|].
  pose proof (split_not_nil sep s) as Hne.
  destruct (Ascii.eqb c sep) eqn:E.
  - apply Ascii.eqb_eq in E as ->.
    destruct (Py.split sep s) as [|h t]; [congruence|].
    change (Py.join sep (EmptyString :: h :: t))
      with (String sep (Py.join sep (h :: t))).
    rewrite IH. reflexivity.
  - destruct (Py.split sep s) as [|h [|h' t]]; [congruence | |].
    + simpl in *. rewrite IH. reflexivity.
    + change (Py.join sep (String c h :: h' :: t))
        with (String c (Py.join sep (h :: h' :: t))).
      rewrite IH. reflexivity.
Qed.

(** A line without the separator splits into one piece, a line with it
    into two or more. *)
Lemma split_second (sep : ascii) (s : string) :
  Py.split sep s !! 1%nat = None <-> Py.contains sep s = false.
Proof.
  split.
  - induction s as [|c s IH]; simpl; [reflexivity|].
    destruct (Ascii.eqb c sep) eqn:E.
    + pose proof (split_not_nil sep s).
      destruct (Py.split sep s); [congruence|discriminate].
    + pose proof (split_not_nil sep s).
      destruct (Py.split sep s) as [|h t] eqn:Es; [congruence|].
      simpl. intros Ht. apply IH. exact Ht.
  - intros H. rewrite (split_without _ _ H). reflexivity.
Qed.

(** Removing the occurrences of [old] removes no character that [old]
    does not contain. *)
Lemma replace_from_contains (c o : ascii) (old' : string) :
  Py.contains c (String o old') = false ->
  forall (s : string) (k : nat),
    Py.contains c (String.substring 0 k s) = false ->
    Py.contains c (Py.replace_from (String o old') EmptyString k s)
    = Py.contains c s.
Proof.
  intros Hold. induction s as [|a s IH]; intros k Hk; [reflexivity|].
  destruct k as [|k].
  - cbn [Py.replace_from].
    destruct (String.prefix (String o old') (String a s)) eqn:Hp.
    + rewrite append_nil. simpl in Hp.
      destruct (ascii_dec o a) as [->|]; [|discriminate].
      apply String.prefix_correct in Hp.
      simpl in Hold. apply orb_false_iff in Hold as [Ha Hold'].
      simpl. rewrite Ha. simpl. apply IH. rewrite Hp. exact Hold'.
    + simpl. f_equal. apply IH. destruct s; reflexivity.
  - simpl in Hk. apply orb_false_iff in Hk as [Ha Hk].
    simpl. rewrite Ha. simpl. apply IH, Hk.
Qed.

Lemma replace_contains (c o : ascii) (old' s : string) :
  Py.contains c (String o old') = false ->
  Py.contains c (Py.replace (String o old') EmptyString s) = Py.contains c s.
Proof.
  intros H. unfold Py.replace. apply replace_from_contains; [exact H|].
  destruct s; reflexivity.
Qed.

(** Where the first character of [old] does not occur, nothing is replaced. *)
Lemma replace_from_append (o : ascii) (old' new a b : string) :
  Py.contains o a = false ->
  Py.replace_from (String o old') new 0 (a +:+ b)
  = a +:+ Py.replace_from (String o old') new 0 b.
Proof.
  induction a as [|c a IH]; intros H; [reflexivity|].
  simpl in H. apply orb_false_iff in H as [Hc Ha].
  rewrite !append_cons. cbn [Py.replace_from String.prefix].
  destruct (ascii_dec o c) as [->|_].
  - rewrite Ascii.eqb_refl in Hc. discriminate.
  - rewrite (IH Ha). reflexivity.
Qed.

Lemma replace_without (o : ascii) (old' new s : string) :
  Py.contains o s = false ->
  Py.replace (String o old') new s = s.
Proof.
  intros H. unfold Py.replace.
  rewrite <- (append_nil_r s) at 1.
  rewrite replace_from_append by exact H.
  simpl. apply append_nil_r.
Qed.

Lemma lstrip_append (s t : string) :
  Py.lstrip (s +:+ t)
  = match Py.lstrip s with
    | EmptyString => Py.lstrip t
    | r => r +:+ t
    end.
Proof.
  induction s as [|c s IH].
  - reflexivity.
  - rewrite append_cons. cbn [Py.lstrip].
    destruct (Py.isspace c); [exact IH | reflexivity].
Qed.

Lemma rstrip_append_space (s : string) (c : ascii) :
  Py.isspace c = true ->
  Py.rstrip (s +:+ String c EmptyString) = Py.rstrip s.
Proof.
  intros Hc. induction s as [|a s IH].
  - rewrite append_nil. simpl. rewrite Hc. reflexivity.
  - rewrite append_cons. simpl. rewrite IH. reflexivity.
Qed.

Lemma strip_space_left (s : string) : Py.strip (" " +:+ s) = Py.strip s.
Proof. reflexivity. Qed.

Lemma strip_space_right (s : string) : Py.strip (s +:+ " ") = Py.strip s.
Proof.
  unfold Py.strip. rewrite lstrip_append.
  destruct (Py.lstrip s) as [|c r] eqn:E; [reflexivity|].
  apply rstrip_append_space. reflexivity.
Qed.

(** ** The numeric coercion *)

(** The test [test % 1 == 0] holds exactly for the floats that stand for an
    integer, and [int(test)] is then that integer. *)
Lemma mod1_is_zero_integer (x : spec_float) :
  Float.mod1_is_zero x = true ->
  exists (q : Q) (n : Z),
    Float.to_Q x = Some q /\ Float.to_int x = Ok n /\ (q == inject_Z n)%Q.
Proof.
  destruct x as [s|s| |s m e]; simpl; try discriminate.
  - intros _. exists 0%Q, 0. repeat split; reflexivity.
  - destruct (0 <=? e) eqn:He.
    + intros _. eexists _, _. repeat split; reflexivity.
    + intros Hm. apply Z.eqb_eq in Hm. apply Z.leb_gt in He.
      assert (Hp : 0 < 2 ^ (- e)) by (apply Z.pow_pos_nonneg; lia).
      eexists _, _. repeat split.
      unfold Qeq. simpl. rewrite Z2Pos.id by exact Hp.
      pose proof (Z.div_mod (Z.pos m) (2 ^ (- e)) ltac:(lia)) as Hd.
      rewrite Hm in Hd. destruct s; simpl; lia.
Qed.

Lemma mod1_not_zero_fraction (x : spec_float) (q : Q) :
  Float.mod1_is_zero x = false ->
  Float.to_Q x = Some q ->
  ~ is_integer q.
Proof.
  destruct x as [s|s| |s m e]; simpl; try discriminate.
  destruct (0 <=? e) eqn:He; [discriminate|].
  intros Hm [= <-] [n Hn]. apply Z.eqb_neq in Hm. apply Z.leb_gt in He.
  assert (Hp : 0 < 2 ^ (- e)) by (apply Z.pow_pos_nonneg; lia).
  unfold Qeq in Hn. simpl in Hn. rewrite Z2Pos.id in Hn by exact Hp.
  apply Hm.
  assert (Hmn : Z.pos m = (if s then - n else n) * 2 ^ (- e))
    by (destruct s; simpl in Hn; lia).
  rewrite Hmn. apply Z.mod_mul. lia.
Qed.

(** The [try] block never lets an exception out, and stores what the
    specification says. *)
Lemma coerce_spec (s : string) :
  exists v : value, coerce s = Ok v /\ coercion_spec s v.
Proof.
  unfold coerce. destruct (Float.of_string s) as [x|] eqn:Hx.
  - destruct (Float.mod1_is_zero x) eqn:Hm.
    + destruct (mod1_is_zero_integer x Hm) as (q & n & Hq & Hn & Hqn).
      rewrite Hn. exists (PyInt n). split; [reflexivity|].
      eapply coercion_integer; eassumption.
    + exists (PyFloat x). split; [reflexivity|].
      destruct (Float.to_Q x) as [q|] eqn:Hq.
      * eapply coercion_fraction; [eassumption..|].
        eapply mod1_not_zero_fraction; eassumption.
      * apply coercion_not_finite; assumption.
  - exists (PyStr s). split; [reflexivity | apply coercion_string, Hx].
Qed.

(** The coercion tests the float, that is the decimal after rounding. *)
Example coerce_rounds_first :
  coerce "0.99999999999999999999" = Ok (PyInt 1)
  /\ coerce "1e-400" = Ok (PyInt 0)
  /\ coerce "-2.50" = Ok (PyFloat (S754_finite true 5629499534213120 (-51)))
  /\ coerce "1e400" = Ok (PyFloat (S754_infinity false))
  /\ coerce "NaN" = Ok (PyFloat S754_nan)
  /\ coerce "1_000" = Ok (PyInt 1000)
  /\ coerce "1e3" = Ok (PyInt 1000)
  /\ coerce "0x10" = Ok (PyStr "0x10")
  /\ coerce "1,5" = Ok (PyStr "1,5").
Proof. repeat split; vm_compute; reflexivity. Qed.

(** ** The header parser on one line *)

Lemma replace_marker_head (r : string) :
  Py.replace "# " "" ("# " +:+ r) = Py.replace "# " "" r.
Proof. destruct r; reflexivity. Qed.

Lemma plain_parts (s : string) :
  plain s = true ->
  Py.contains "#" s = false /\ Py.contains "=" s = false
  /\ Py.contains Py.newline s = false.
Proof.
  unfold plain. intros H.
  apply andb_true_iff in H as [H H3]. apply andb_true_iff in H as [H1 H2].
  apply negb_true_iff in H1, H2, H3. auto.
Qed.

Lemma split_header_line_plain (key val : string) :
  plain key = true -> plain val = true ->
  split_header_line (header_line key val) = [key +:+ " "; " " +:+ val].
Proof.
  intros Hk Hv.
  apply plain_parts in Hk as (Hk1 & Hk2 & Hk3).
  apply plain_parts in Hv as (Hv1 & Hv2 & Hv3).
  unfold split_header_line, clean_header_line, header_line.
  set (body := key +:+ " = " +:+ val).
  assert (Hb1 : Py.contains "#" (body +:+ String Py.newline "") = false).
  { unfold body. rewrite !contains_append, Hk1, Hv1. reflexivity. }
  assert (Hb3 : Py.contains Py.newline body = false).
  { unfold body. rewrite !contains_append, Hk3, Hv3. reflexivity. }
  replace ("# " +:+ key +:+ " = " +:+ val +:+ String Py.newline "")
    with ("# " +:+ (body +:+ String Py.newline "")).
  2:{ unfold body. rewrite !append_assoc. reflexivity. }
  assert (H1 : Py.replace "# " "" ("# " +:+ (body +:+ String Py.newline ""))
               = body +:+ String Py.newline "").
  { rewrite replace_marker_head. apply replace_without, Hb1. }
  rewrite H1.
  assert (H2 : Py.replace (String Py.newline "") "" (body +:+ String Py.newline "")
               = body).
  { unfold Py.replace. rewrite replace_from_append by exact Hb3.
    simpl. apply append_nil_r. }
  rewrite H2. unfold body.
  replace (key +:+ " = " +:+ val) with ((key +:+ " ") +:+ String "=" (" " +:+ val)).
  2:{ rewrite !append_assoc. reflexivity. }
  rewrite split_append_sep.
  - f_equal. apply split_without. rewrite contains_append, Hv2. reflexivity.
  - rewrite contains_append, Hk2. reflexivity.
Qed.

(** C1. For every well-formed header line [# key = value], the header
    parser stores under the trimmed key the coercion of the trimmed value:
    the integer of a float whose fractional part is zero, the float
    otherwise, and the trimmed string itself when it does not parse.  In
    particular "3.0" is stored as the integer 3, "3.5" as the float 3.5
    and "abc" as the string "abc". *)
Theorem header_numeric_coercion (d : gmap string value) (key val : string) :
  plain key = true -> plain val = true ->
  exists v : value,
    header_step d (header_line key val) = Ok (<[Py.strip key := v]> d)
    /\ coercion_spec (Py.strip val) v
    /\ (val = "3.0" -> v = PyInt 3)
    /\ (val = "3.5" ->
        exists (x : spec_float) (q : Q),
          v = PyFloat x /\ Float.to_Q x = Some q /\ (q == 7 # 2)%Q)
    /\ (val = "abc" -> v = PyStr "abc").
Proof.
  intros Hk Hv.
  destruct (coerce_spec (Py.strip val)) as (v & Hc & Hs).
  exists v. split; [|split; [exact Hs|]].
  - unfold header_step, header_entry.
    rewrite (split_header_line_plain key val Hk Hv). simpl.
    rewrite strip_space_left, strip_space_right, Hc. reflexivity.
  - repeat split; intros ->; vm_compute in Hc; injection Hc as <-.
    + reflexivity.
    + eexists _, _. repeat split.
    + reflexivity.
Qed.

Lemma header_numeric_coercion_witness :
  exists v : value,
    header_step ∅ (header_line "z-points" "3.0") = Ok (<["z-points" := v]> ∅)
    /\ v = PyInt 3.
Proof.
  destruct (header_numeric_coercion ∅ "z-points" "3.0" eq_refl eq_refl)
    as (v & Hstep & _ & Hint & _).
  exists v. split; [exact Hstep | exact (Hint eq_refl)].
Defined.

(** ** Loops that stop at the first exception *)

Lemma for_each_app {A B} (f : B -> A -> result B) (xs ys : list A) (acc : B) :
  for_each f (xs ++ ys) acc
  = match for_each f xs acc with
    | Ok acc' => for_each f ys acc'
    | Raise e => Raise e
    end.
Proof.
  revert acc. induction xs as [|x xs IH]; intros acc; simpl; [reflexivity|].
  destruct (f acc x); [apply IH | reflexivity].
Qed.

Lemma for_each_raise {A B} (f : B -> A -> result B) (xs : list A) (acc : B) e :
  for_each f xs acc = Raise e ->
  exists (x : A) (acc' : B), x ∈ xs /\ f acc' x = Raise e.
Proof.
  revert acc. induction xs as [|x xs IH]; intros acc; simpl; [discriminate|].
  destruct (f acc x) as [acc'|e'] eqn:Hf.
  - intros H. destruct (IH _ H) as (y & a & Hy & Hfy).
    exists y, a. split; [right; exact Hy | exact Hfy].
  - intros [= <-]. exists x, acc. split; [left | exact Hf].
Qed.

Lemma for_each_ok {A B} (f : B -> A -> result B) (xs : list A) (acc r : B) :
  for_each f xs acc = Ok r ->
  forall x : A, x ∈ xs -> exists acc' acc'' : B, f acc' x = Ok acc''.
Proof.
  revert acc. induction xs as [|y xs IH]; intros acc H x Hx.
  - inversion Hx.
  - simpl in H. destruct (f acc y) as [acc'|e'] eqn:Hf; [|discriminate].
    apply elem_of_cons in Hx as [->|Hx]; [eauto | eapply IH; eassumption].
Qed.

Lemma for_each_total {A B} (f : B -> A -> result B) (xs : list A) (acc : B) :
  (forall (a : B) (x : A), x ∈ xs -> exists a' : B, f a x = Ok a') ->
  exists r : B, for_each f xs acc = Ok r.
Proof.
  revert acc. induction xs as [|y xs IH]; intros acc H; simpl; [eauto|].
  destruct (H acc y) as [a' Ha']; [left|]. rewrite Ha'.
  apply IH. intros a x Hx. apply H. right. exact Hx.
Qed.

(** ** The header parser *)

Lemma clean_header_line_equals (line : string) :
  Py.contains "=" (clean_header_line line) = Py.contains "=" line.
Proof.
  unfold clean_header_line.
  rewrite replace_contains by reflexivity.
  apply replace_contains. reflexivity.
Qed.

(** A header line is processed when it has an equals sign, and raises
    [IndexError] when it has none. *)
Lemma header_entry_cases (line : string) :
  (Py.contains "=" line = true /\ exists kv, header_entry line = Ok kv)
  \/ (Py.contains "=" line = false /\ header_entry line = Raise IndexError).
Proof.
  unfold header_entry, split_header_line.
  pose proof (split_second "=" (clean_header_line line)) as Hsec.
  rewrite clean_header_line_equals in Hsec.
  pose proof (split_not_nil "=" (clean_header_line line)) as Hne.
  destruct (Py.split "=" (clean_header_line line)) as [|t0 [|t1 rest]] eqn:E.
  - congruence.
  - right. split; [apply Hsec; reflexivity | reflexivity].
  - left. split.
    + destruct (Py.contains "=" line); [reflexivity|].
      destruct Hsec as [_ Hsec]. specialize (Hsec eq_refl). discriminate.
    + simpl. destruct (coerce_spec (Py.strip t1)) as (v & Hv & _).
      rewrite Hv. simpl. eauto.
Qed.

Lemma header_step_raise (d : gmap string value) (line : string) (e : exn) :
  header_step d line = Raise e ->
  e = IndexError /\ Py.contains "=" line = false.
Proof.
  unfold header_step.
  destruct (header_entry_cases line) as [[_ [[k v] Hkv]]|[Hc Hr]].
  - rewrite Hkv. discriminate.
  - rewrite Hr. simpl. intros [= <-]. auto.
Qed.

Lemma header_step_ok (d d' : gmap string value) (line : string) :
  header_step d line = Ok d' -> Py.contains "=" line = true.
Proof.
  unfold header_step.
  destruct (header_entry_cases line) as [[Hc _]|[_ Hr]]; [auto|].
  rewrite Hr. discriminate.
Qed.

(** C5 (amended). When a header line in the parsed range has no equals
    sign, the header parser does not succeed: it raises [IndexError], the
    same error whatever the position of the line. *)
Theorem header_line_without_equals (string_lines : list string) (line : string) :
  line ∈ header_lines string_lines ->
  Py.contains "=" line = false ->
  parse_header string_lines = Raise IndexError.
Proof.
  intros Hin Hno. unfold parse_header.
  destruct (for_each header_step (header_lines string_lines) ∅) as [d|e] eqn:H.
  - destruct (for_each_ok _ _ _ _ H line Hin) as (a & a' & Ha).
    apply header_step_ok in Ha. congruence.
  - destruct (for_each_raise _ _ _ _ H) as (x & a & _ & Hx).
    apply header_step_raise in Hx as [-> _]. reflexivity.
Qed.

Lemma header_line_without_equals_witness :
  parse_header (replicate 5 (header_line "a" "1") ++ ["# no equals sign"])
  = Raise IndexError.
Proof.
  apply (header_line_without_equals _ "# no equals sign").
  - vm_compute. right. right. left.
  - reflexivity.
Defined.

(** C5, as stated, fails: no reading of the error gives the position of
    the offending line, since the error is the same at every position. *)
Lemma header_error_has_no_position :
  ~ exists locate : exn -> nat, identifies_position locate.
Proof.
  intros [locate H].
  destruct (H (replicate 3 "" ++ ["x"]) 0%nat "x" eq_refl eq_refl) as (e0 & He0 & Hl0).
  { intros j l Hj. lia. }
  destruct (H (replicate 3 "" ++ ["a=b"; "x"]) 1%nat "x" eq_refl eq_refl)
    as (e1 & He1 & Hl1).
  { intros [|j] l Hj; [|lia]. intros [= <-]. reflexivity. }
  vm_compute in He0, He1. congruence.
Qed.

(** C6 (amended). The header parser removes every occurrence of the
    comment marker and of the line feed and splits what is left at every
    equals sign; it stores the trimmed text before the first equals sign as
    the key, and the coercion of the trimmed text between the first equals
    sign and the second (or the end of the line) as the value.  What
    follows a second equals sign is not stored. *)
Theorem header_splits_at_every_equals
    (d : gmap string value) (line k v : string) (rest : list string) :
  clean_header_line line = Py.join "=" (k :: v :: rest) ->
  Forall (fun p => Py.contains "=" p = false) (k :: v :: rest) ->
  exists val : value,
    coerce (Py.strip v) = Ok val
    /\ header_step d line = Ok (<[Py.strip k := val]> d).
Proof.
  intros Hclean Hparts.
  destruct (coerce_spec (Py.strip v)) as (val & Hval & _).
  exists val. split; [exact Hval|].
  unfold header_step, header_entry, split_header_line.
  rewrite Hclean, split_join by (discriminate || exact Hparts).
  simpl. rewrite Hval. reflexivity.
Qed.

Lemma header_splits_at_every_equals_witness :
  exists val : value,
    coerce (Py.strip " a") = Ok val
    /\ header_step ∅ (header_line "key" "a=b") = Ok (<[Py.strip "key " := val]> ∅).
Proof.
  apply (header_splits_at_every_equals ∅ (header_line "key" "a=b")
           "key " " a" ["b"]).
  - reflexivity.
  - repeat constructor.
Defined.

(** C6, as stated, fails: a value with an equals sign is cut at that sign. *)
Lemma value_with_equals_is_cut :
  header_entry (header_line "key" "a=b") = Ok ("key", PyStr "a")
  /\ header_entry (header_line "key" "a=b") <> Ok ("key", PyStr "a=b").
Proof. split; [vm_compute; reflexivity | vm_compute; discriminate]. Qed.

(** The parser also removes a comment marker that is not at the start. *)
Example marker_inside_value_is_removed :
  header_entry (header_line "key" "a# b") = Ok ("key", PyStr "ab").
Proof. vm_compute. reflexivity. Qed.

Lemma header_step_entry (d : gmap string value) (line key : string) (v : value) :
  header_entry line = Ok (key, v) ->
  header_step d line = Ok (<[key := v]> d).
Proof. intros H. unfold header_step. rewrite H. reflexivity. Qed.

(** Lines with other keys leave the entry of a key as it was. *)
Lemma for_each_header_other (xs : list string) (acc d : gmap string value)
    (key : string) :
  for_each header_step xs acc = Ok d ->
  (forall l : string, l ∈ xs -> header_key l <> Some key) ->
  d !! key = acc !! key.
Proof.
  revert acc. induction xs as [|x xs IH]; intros acc H Hother.
  - injection H as <-. reflexivity.
  - simpl in H. unfold header_step at 1 in H.
    pose proof (Hother x ltac:(left)) as Hx. unfold header_key in Hx.
    destruct (header_entry x) as [[k v]|e]; [|discriminate].
    simpl in H. rewrite (IH _ H) by (intros l Hl; apply Hother; right; exact Hl).
    apply lookup_insert_ne. congruence.
Qed.

Lemma for_each_header_last (before after : list string) (line key : string)
    (v : value) (acc d : gmap string value) :
  for_each header_step (before ++ line :: after) acc = Ok d ->
  header_entry line = Ok (key, v) ->
  (forall l : string, l ∈ after -> header_key l <> Some key) ->
  d !! key = Some v.
Proof.
  intros H Hline Hafter. rewrite for_each_app in H.
  destruct (for_each header_step before acc) as [acc'|]; [|discriminate].
  simpl in H. rewrite (header_step_entry _ _ _ _ Hline) in H.
  rewrite (for_each_header_other _ _ _ _ H Hafter).
  apply lookup_insert_eq.
Qed.

(** C8. When every line of the parsed range has an equals sign, the header
    parser succeeds, also with a key on several lines; and for every key
    the parameter mapping holds the value coerced from the last line that
    has that key. *)
Theorem duplicate_key_last_wins (string_lines : list string) :
  (forall line : string,
      line ∈ header_lines string_lines -> Py.contains "=" line = true) ->
  exists d : gmap string value,
    parse_header string_lines = Ok d
    /\ forall (before after : list string) (line key : string) (v : value),
         header_lines string_lines = before ++ line :: after ->
         header_entry line = Ok (key, v) ->
         (forall l : string, l ∈ after -> header_key l <> Some key) ->
         d !! key = Some v.
Proof.
  intros Hall. unfold parse_header.
  destruct (for_each_total header_step (header_lines string_lines) ∅) as [d Hd].
  { intros a x Hx. unfold header_step.
    destruct (header_entry_cases x) as [[_ [[k v] Hkv]]|[Hc _]].
    - rewrite Hkv. simpl. eauto.
    - rewrite (Hall x Hx) in Hc. discriminate. }
  exists d. split; [exact Hd|].
  intros before after line key v Hsplit Hline Hafter.
  rewrite Hsplit in Hd. eapply for_each_header_last; eassumption.
Qed.

Lemma duplicate_key_last_wins_witness :
  exists d : gmap string value,
    parse_header (replicate 3 "" ++ [header_line "k" "1"; header_line "j" "x";
                                     header_line "k" "2.5"; header_line "k" "7"])
    = Ok d
    /\ d !! "k" = Some (PyInt 7).
Proof.
  destruct (duplicate_key_last_wins
              (replicate 3 "" ++ [header_line "k" "1"; header_line "j" "x";
                                  header_line "k" "2.5"; header_line "k" "7"]))
    as (d & Hd & Hlast).
  - intros line Hin. vm_compute in Hin.
    repeat (apply elem_of_cons in Hin as [->|Hin]; [reflexivity|]).
    inversion Hin.
  - exists d. split; [exact Hd|].
    apply (Hlast [header_line "k" "1"; header_line "j" "x"; header_line "k" "2.5"]
                 [] (header_line "k" "7")).
    + reflexivity.
    + vm_compute. reflexivity.
    + intros l Hl. inversion Hl.
Defined.

(** ** The grid reader *)

#[local] Opaque num_headers.

Lemma for_each_invariant {A B} (P : B -> Prop) (f : B -> A -> result B)
    (xs : list A) (acc r : B) :
  (forall (a a' : B) (x : A), x ∈ xs -> P a -> f a x = Ok a' -> P a') ->
  P acc -> for_each f xs acc = Ok r -> P r.
Proof.
  revert acc. induction xs as [|x xs IH]; intros acc Hstep Hacc H; simpl in H.
  - injection H as <-. exact Hacc.
  - destruct (f acc x) as [acc'|] eqn:Hf; [|discriminate].
    eapply IH; [|eapply Hstep; [left|exact Hacc|exact Hf]|exact H].
    intros a a' y Hy. apply Hstep. right. exact Hy.
Qed.

Lemma np_array_float32_raise (tokens : list string) (e : exn) :
  np_array_float32 tokens = Raise e -> e = ValueError.
Proof.
  induction tokens as [|t rest IH]; simpl; [discriminate|].
  unfold float32_of_string. destruct (Float.of_string t); simpl.
  - destruct (np_array_float32 rest); simpl; [discriminate|].
    intros [= <-]. apply IH. reflexivity.
  - intros [= <-]. reflexivity.
Qed.

(** The array has one element for each token: its parse. *)
Lemma np_array_float32_ok (tokens : list string) (arr : list spec_float) :
  np_array_float32 tokens = Ok arr ->
  length arr = length tokens
  /\ forall (j : nat) (token : string),
       tokens !! j = Some token ->
       exists x : spec_float, float32_of_string token = Ok x /\ arr !! j = Some x.
Proof.
  revert arr. induction tokens as [|t rest IH]; intros arr; simpl.
  - intros [= <-]. split; [reflexivity|]. intros j token H. discriminate.
  - destruct (float32_of_string t) as [x|] eqn:Hx; simpl; [|discriminate].
    destruct (np_array_float32 rest) as [xs|]; simpl; [|discriminate].
    intros [= <-]. destruct (IH xs eq_refl) as [Hlen Hcell].
    split; [simpl; congruence|].
    intros [|j] token; simpl.
    + intros [= <-]. eauto.
    + apply Hcell.
Qed.

Lemma shape_allowed_nonneg (rows cols : Z) :
  shape_allowed rows cols = true -> 0 <= rows /\ 0 <= cols.
Proof.
  unfold shape_allowed. intros H.
  repeat (apply andb_true_iff in H as [H ?]). split; apply Z.leb_le; assumption.
Qed.

(** An allowed shape: the size in bytes fits an [npy_intp]. *)
Lemma shape_allowed_size (rows cols : Z) :
  shape_allowed rows cols = true
  <-> 0 <= rows /\ 0 <= cols
      /\ itemsize * Z.max 1 rows * Z.max 1 cols <= max_intp.
Proof.
  unfold shape_allowed, itemsize, max_intp.
  rewrite !andb_true_iff, !Z.leb_le.
  destruct (Z.eqb_spec rows 0) as [->|Hr], (Z.eqb_spec cols 0) as [->|Hc];
    split; intros H; nia.
Qed.

Lemma np_zeros_shape (rows cols : Z) (a : list (list spec_float)) :
  np_zeros rows cols = Ok a ->
  0 <= rows /\ 0 <= cols /\ has_shape (Z.to_nat rows) (Z.to_nat cols) a.
Proof.
  unfold np_zeros. destruct (shape_allowed rows cols) eqn:H; [|discriminate].
  intros [= <-]. apply shape_allowed_nonneg in H as [Hr Hc].
  repeat split; try assumption.
  - apply length_replicate.
  - apply Forall_replicate. apply length_replicate.
Qed.

Lemma np_zeros_ok (rows cols : Z) :
  shape_allowed rows cols = true -> exists a, np_zeros rows cols = Ok a.
Proof. intros H. unfold np_zeros. rewrite H. eauto. Qed.

Lemma np_zeros_raise (rows cols : Z) :
  shape_allowed rows cols = false -> np_zeros rows cols = Raise ValueError.
Proof. intros H. unfold np_zeros. rewrite H. reflexivity. Qed.

Lemma np_zeros_allowed (rows cols : Z) (a : list (list spec_float)) :
  np_zeros rows cols = Ok a -> shape_allowed rows cols = true.
Proof.
  unfold np_zeros. destruct (shape_allowed rows cols); [reflexivity | discriminate].
Qed.

Lemma has_shape_insert (rows cols : nat) (a : list (list spec_float))
    (i : nat) (v : list spec_float) :
  has_shape rows cols a -> length v = cols -> has_shape rows cols (<[i := v]> a).
Proof.
  intros [Hlen Hrows] Hv. split.
  - rewrite length_insert. exact Hlen.
  - apply Forall_insert; assumption.
Qed.

Lemma has_shape_lookup (rows cols : nat) (a : list (list spec_float))
    (i : nat) (row : list spec_float) :
  has_shape rows cols a -> a !! i = Some row -> length row = cols.
Proof.
  intros [_ Hrows] Hi. rewrite Forall_lookup in Hrows. exact (Hrows i row Hi).
Qed.

(** What [a[i] = v] does, by the length of [v]. *)
Lemma set_row_cases (rows cols : nat) (a : list (list spec_float))
    (i : nat) (v : list spec_float) :
  has_shape rows cols a -> (i < rows)%nat ->
  (length v = cols /\ set_row a i v = Ok (<[i := v]> a))
  \/ (length v <> cols /\ exists x, v = [x]
      /\ set_row a i v = Ok (<[i := replicate cols x]> a))
  \/ (length v <> cols /\ length v <> 1%nat /\ set_row a i v = Raise ValueError).
Proof.
  intros Hshape Hi. unfold set_row.
  destruct (a !! i) as [row|] eqn:Hrow.
  2:{ apply lookup_ge_None in Hrow. destruct Hshape as [Hlen _]. lia. }
  rewrite (has_shape_lookup _ _ _ _ _ Hshape Hrow).
  destruct (Nat.eqb_spec (length v) cols) as [Heq|Hne]; [left; auto|].
  right. destruct v as [|x [|y v]].
  - right. simpl in *. repeat split; [exact Hne | lia].
  - left. split; [exact Hne|]. exists x. split; reflexivity.
  - right. simpl in *. repeat split; [exact Hne | lia].
Qed.

Lemma set_row_shape (rows cols : nat) (a a' : list (list spec_float))
    (i : nat) (v : list spec_float) :
  has_shape rows cols a -> set_row a i v = Ok a' -> has_shape rows cols a'.
Proof.
  intros Hshape. unfold set_row.
  destruct (a !! i) as [row|] eqn:Hrow; [|discriminate].
  pose proof (has_shape_lookup _ _ _ _ _ Hshape Hrow) as Hlen.
  destruct (Nat.eqb_spec (length v) (length row)) as [Heq|Hne].
  - intros [= <-]. apply has_shape_insert; [exact Hshape | congruence].
  - destruct v as [|x [|y v]]; try discriminate.
    intros [= <-]. apply has_shape_insert; [exact Hshape|].
    rewrite length_replicate. exact Hlen.
Qed.

Lemma read_row_shape (string_lines : list string) (rows cols : nat)
    (a a' : list (list spec_float)) (i : nat) :
  has_shape rows cols a -> read_row string_lines a i = Ok a' ->
  has_shape rows cols a'.
Proof.
  intros Hshape. unfold read_row.
  destruct (getline string_lines (num_headers + i)); simpl; [|discriminate].
  destruct (np_array_float32 (string_spectrum a0)); simpl; [|discriminate].
  apply set_row_shape, Hshape.
Qed.

(** A successful read has the shape it was asked for. *)
Lemma read_grid_shape (string_lines : list string) (num_pos len : Z)
    (g : list (list spec_float)) :
  read_grid string_lines num_pos len = Ok g ->
  0 <= num_pos /\ 0 <= len /\ has_shape (Z.to_nat num_pos) (Z.to_nat len) g.
Proof.
  unfold read_grid.
  destruct (np_zeros num_pos len) as [a|] eqn:Hz; simpl; [|discriminate].
  apply np_zeros_shape in Hz as (Hr & Hc & Hshape).
  intros H. split; [exact Hr|]. split; [exact Hc|].
  refine (for_each_invariant (has_shape _ _) _ _ _ _ _ Hshape H).
  intros b b' x _. apply read_row_shape.
Qed.

Lemma read_row_missing (string_lines : list string)
    (a : list (list spec_float)) (i : nat) :
  string_lines !! (num_headers + i)%nat = None ->
  read_row string_lines a i = Raise IndexError.
Proof. intros H. unfold read_row, getline. rewrite H. reflexivity. Qed.

Lemma read_row_accepted (string_lines : list string) (rows cols : nat)
    (a : list (list spec_float)) (i : nat) (line : string) :
  has_shape rows cols a -> (i < rows)%nat ->
  string_lines !! (num_headers + i)%nat = Some line ->
  row_accepted cols line = true ->
  read_row string_lines a i = Ok (<[i := stored_row cols line]> a).
Proof.
  intros Hshape Hi Hline Hacc. unfold read_row, getline. rewrite Hline. simpl.
  unfold row_accepted in Hacc. unfold stored_row.
  destruct (np_array_float32 (string_spectrum line)) as [arr|]; [|discriminate].
  simpl.
  destruct (set_row_cases rows cols a i arr Hshape Hi)
    as [[Hlen ->]|[(Hlen & x & -> & ->)|(Hlen & Hone & _)]].
  - apply Nat.eqb_eq in Hlen. rewrite Hlen. reflexivity.
  - apply Nat.eqb_neq in Hlen. rewrite Hlen. reflexivity.
  - apply Nat.eqb_neq in Hlen, Hone. rewrite Hlen, Hone in Hacc. discriminate.
Qed.

Lemma read_row_rejected (string_lines : list string) (rows cols : nat)
    (a : list (list spec_float)) (i : nat) (line : string) :
  has_shape rows cols a -> (i < rows)%nat ->
  string_lines !! (num_headers + i)%nat = Some line ->
  row_accepted cols line = false ->
  read_row string_lines a i = Raise ValueError.
Proof.
  intros Hshape Hi Hline Hrej. unfold read_row, getline. rewrite Hline. simpl.
  unfold row_accepted in Hrej.
  destruct (np_array_float32 (string_spectrum line)) as [arr|e] eqn:Harr; simpl.
  - destruct (set_row_cases rows cols a i arr Hshape Hi)
      as [[Hlen _]|[(_ & x & -> & _)|(_ & _ & ->)]].
    + apply Nat.eqb_eq in Hlen. rewrite Hlen in Hrej. discriminate.
    + rewrite orb_true_r in Hrej. discriminate.
    + reflexivity.
  - apply np_array_float32_raise in Harr as ->. reflexivity.
Qed.

(** The loop over the first [i] rows, when they are accepted. *)
Lemma read_rows_prefix (string_lines : list string) (rows cols : nat)
    (a : list (list spec_float)) (i : nat) :
  has_shape rows cols a -> (i <= rows)%nat ->
  rows_accepted string_lines cols i ->
  exists a' : list (list spec_float),
    for_each (read_row string_lines) (seq 0 i) a = Ok a'
    /\ has_shape rows cols a'
    /\ forall (j : nat) (line : string),
         (j < i)%nat -> string_lines !! (num_headers + j)%nat = Some line ->
         a' !! j = Some (stored_row cols line).
Proof.
  intros Hshape. induction i as [|i IH]; intros Hi Hacc.
  - exists a. repeat split; [exact (proj1 Hshape) | exact (proj2 Hshape) |].
    intros j line Hj. lia.
  - destruct IH as (a' & Hrun & Hshape' & Hcells); [lia | |].
    { intros j Hj. apply Hacc. lia. }
    destruct (Hacc i ltac:(lia)) as (line & Hline & Hok).
    exists (<[i := stored_row cols line]> a').
    rewrite seq_S, for_each_app, Hrun. simpl.
    rewrite (read_row_accepted _ rows cols a' i line Hshape' ltac:(lia) Hline Hok).
    split; [reflexivity|]. split.
    + eapply read_row_shape; [exact Hshape'|].
      apply (read_row_accepted _ rows cols a' i line Hshape' ltac:(lia) Hline Hok).
    + intros j line' Hj Hline'.
      destruct (Nat.eq_dec j i) as [->|Hne].
      * assert (line' = line) as -> by congruence.
        apply list_lookup_insert_eq. destruct Hshape' as [-> _]. lia.
      * rewrite list_lookup_insert_ne by congruence.
        apply Hcells; [lia | exact Hline'].
Qed.

(** When every row is accepted the read succeeds, and row [i] of the grid
    is what line [403 + i] stores. *)
Lemma read_grid_accepted (string_lines : list string) (num_pos len : Z) :
  shape_allowed num_pos len = true ->
  rows_accepted string_lines (Z.to_nat len) (Z.to_nat num_pos) ->
  exists g : list (list spec_float),
    read_grid string_lines num_pos len = Ok g
    /\ has_shape (Z.to_nat num_pos) (Z.to_nat len) g
    /\ forall (i : nat) (line : string),
         (i < Z.to_nat num_pos)%nat ->
         string_lines !! (num_headers + i)%nat = Some line ->
         g !! i = Some (stored_row (Z.to_nat len) line).
Proof.
  intros Hok Hacc. unfold read_grid.
  destruct (np_zeros_ok num_pos len Hok) as [a Ha]. rewrite Ha. simpl.
  apply np_zeros_shape in Ha as (_ & _ & Hshape).
  apply read_rows_prefix; [exact Hshape | lia | exact Hacc].
Qed.

Lemma for_each_ext {A B} (f g : B -> A -> result B) (xs : list A) (acc : B) :
  (forall (a : B) (x : A), x ∈ xs -> f a x = g a x) ->
  for_each f xs acc = for_each g xs acc.
Proof.
  revert acc. induction xs as [|x xs IH]; intros acc H; [reflexivity|].
  simpl. rewrite <- (H acc x) by left.
  destruct (f acc x) as [acc'|]; [|reflexivity].
  apply IH. intros b y Hy. apply H. right. exact Hy.
Qed.

Lemma read_grid_ext (ls ls' : list string) (num_pos len : Z) :
  (forall i : nat, (i < Z.to_nat num_pos)%nat ->
     ls !! (num_headers + i)%nat = ls' !! (num_headers + i)%nat) ->
  read_grid ls num_pos len = read_grid ls' num_pos len.
Proof.
  intros Hsame. unfold read_grid.
  destruct (np_zeros num_pos len) as [a|]; [|reflexivity]. simpl.
  apply for_each_ext. intros b i Hi.
  apply elem_of_seq in Hi. unfold read_row, getline.
  rewrite (Hsame i) by lia. reflexivity.
Qed.

(** C4 (amended). The grid reader raises [ValueError] when [numpy] does
    not make an array of [num_positions] rows of [spectral_length] values
    (a negative dimension, or a size in bytes beyond [npy_intp]).
    Otherwise it stops at the first data row that it cannot store: with
    [IndexError] when the line is missing, that is when the file has no
    line [403 + i], and with [ValueError] when a token before the last is
    not numeric or when the number of those tokens is neither
    [spectral_length] nor one.  The lines after the [num_positions] data
    lines are not read: two files that agree on the data lines have the
    same outcome. *)
Theorem grid_reader_errors (string_lines : list string) (num_pos len : Z) :
  (shape_allowed num_pos len = false ->
   read_grid string_lines num_pos len = Raise ValueError)
  /\ (forall i : nat,
        shape_allowed num_pos len = true -> (i < Z.to_nat num_pos)%nat ->
        rows_accepted string_lines (Z.to_nat len) i ->
        (string_lines !! (num_headers + i)%nat = None ->
         read_grid string_lines num_pos len = Raise IndexError)
        /\ (forall line : string,
              string_lines !! (num_headers + i)%nat = Some line ->
              row_accepted (Z.to_nat len) line = false ->
              read_grid string_lines num_pos len = Raise ValueError))
  /\ (forall string_lines' : list string,
        (forall j : nat, (j < Z.to_nat num_pos)%nat ->
           string_lines' !! (num_headers + j)%nat
           = string_lines !! (num_headers + j)%nat) ->
        read_grid string_lines' num_pos len = read_grid string_lines num_pos len).
Proof.
  split; [|split].
  - intros Hshape. unfold read_grid.
    rewrite (np_zeros_raise _ _ Hshape). reflexivity.
  - intros i Hallowed Hi Hacc. unfold read_grid.
    destruct (np_zeros_ok num_pos len Hallowed) as [a Ha]. rewrite Ha. simpl.
    apply np_zeros_shape in Ha as (_ & _ & Hshape).
    destruct (read_rows_prefix string_lines _ _ a i Hshape ltac:(lia) Hacc)
      as (a' & Hrun & Hshape' & _).
    replace (seq 0 (Z.to_nat num_pos))
      with (seq 0 i ++ i :: seq (S i) (Z.to_nat num_pos - S i)).
    2:{ change (i :: seq (S i) (Z.to_nat num_pos - S i))
          with (seq i (S (Z.to_nat num_pos - S i))).
        rewrite <- (Nat.add_0_l i) at 2. rewrite <- seq_app. f_equal. lia. }
    rewrite for_each_app, Hrun. simpl. split.
    + intros Hnone. rewrite (read_row_missing _ _ _ Hnone). reflexivity.
    + intros line Hline Hrej.
      rewrite (read_row_rejected _ _ _ a' i line Hshape' Hi Hline Hrej).
      reflexivity.
  - intros ls' Hsame. apply read_grid_ext. exact Hsame.
Qed.

Lemma grid_reader_errors_witness :
  read_grid (sample_header "1" "2" "2" ++ [data_row ["1"; "2"]]) 2 2
  = Raise IndexError
  /\ read_grid (sample_header "1" "2" "2" ++ [data_row ["1"; "2"]; data_row ["1"; "x"]]) 2 2
     = Raise ValueError
  /\ read_grid [] (10 ^ 20) 1 = Raise ValueError.
Proof.
  split; [|split].
  - refine (proj1 (proj1 (proj2 (grid_reader_errors _ 2 2)) 1%nat _ _ _) _).
    + reflexivity.
    + lia.
    + intros j Hj. assert (j = 0%nat) as -> by lia.
      exists (data_row ["1"; "2"]). split; vm_compute; reflexivity.
    + vm_compute. reflexivity.
  - refine (proj2 (proj1 (proj2 (grid_reader_errors _ 2 2)) 1%nat _ _ _)
              (data_row ["1"; "x"]) _ _).
    + reflexivity.
    + lia.
    + intros j Hj. assert (j = 0%nat) as -> by lia.
      exists (data_row ["1"; "2"]). split; vm_compute; reflexivity.
    + vm_compute. reflexivity.
    + vm_compute. reflexivity.
  - apply (proj1 (grid_reader_errors [] (10 ^ 20) 1)). reflexivity.
Defined.

(** C4, as stated, fails: a row with one token where two are expected is
    stored, its value repeated; and a file with more data rows than
    positions is read without an error. *)
Lemma grid_reader_accepts_mismatch :
  (length (string_spectrum (data_row ["7"])) = 1%nat
   /\ exists x : spec_float,
        read_grid (sample_header "1" "1" "2" ++ [data_row ["7"]]) 1 2
        = Ok [[x; x]])
  /\ (length (sample_header "1" "1" "2" ++ [data_row ["7"; "8"]; data_row ["9"; "9"]])
      = (num_headers + 2)%nat
      /\ is_ok (read_grid (sample_header "1" "1" "2"
                           ++ [data_row ["7"; "8"]; data_row ["9"; "9"]]) 1 2)
         = true).
Proof.
  split; [split; [reflexivity|] | split; vm_compute; reflexivity].
  eexists. vm_compute. reflexivity.
Qed.

Lemma row_well_formed_accepted (cols : nat) (line : string) :
  row_well_formed cols line = true ->
  row_accepted cols line = true
  /\ np_array_float32 (string_spectrum line) = Ok (stored_row cols line)
  /\ length (stored_row cols line) = cols.
Proof.
  unfold row_well_formed, row_accepted, stored_row.
  destruct (np_array_float32 (string_spectrum line)) as [arr|]; [|discriminate].
  intros H. rewrite H. apply Nat.eqb_eq in H. auto.
Qed.

(** A block of well-formed rows is read into a grid whose elements are the
    parses of the tokens. *)
Lemma read_grid_well_formed (string_lines : list string) (num_pos len : Z) :
  shape_allowed num_pos len = true ->
  (forall i : nat, (i < Z.to_nat num_pos)%nat ->
     exists line : string,
       string_lines !! (num_headers + i)%nat = Some line
       /\ row_well_formed (Z.to_nat len) line = true) ->
  exists g : list (list spec_float),
    read_grid string_lines num_pos len = Ok g
    /\ has_shape (Z.to_nat num_pos) (Z.to_nat len) g
    /\ forall (i j : nat) (line token : string),
         (i < Z.to_nat num_pos)%nat ->
         string_lines !! (num_headers + i)%nat = Some line ->
         string_spectrum line !! j = Some token ->
         exists x : spec_float,
           float32_of_string token = Ok x /\ cell g i j = Some x.
Proof.
  intros Hallowed Hwf.
  destruct (read_grid_accepted string_lines num_pos len Hallowed)
    as (g & Hg & Hshape & Hrows).
  { intros j Hj. destruct (Hwf j Hj) as (line & Hline & Hok).
    exists line. split; [exact Hline | apply row_well_formed_accepted, Hok]. }
  exists g. split; [exact Hg|]. split; [exact Hshape|].
  intros i j line token Hi Hline Htoken.
  destruct (Hwf i Hi) as (line' & Hline' & Hok).
  assert (line' = line) as -> by congruence.
  apply row_well_formed_accepted in Hok as (_ & Harr & _).
  destruct (np_array_float32_ok _ _ Harr) as [_ Hcells].
  destruct (Hcells j token Htoken) as (x & Hx & Hj).
  exists x. split; [exact Hx|].
  unfold cell. rewrite (Hrows i line Hi Hline). exact Hj.
Qed.

(** C2 (amended). For num_rows = 10, num_cols = 10, spectral_length = 5 and
    a well-formed block of 100 data rows, the grid reader yields a
    [100, 5] array whose every element is the parse of the corresponding
    tab-separated token of the corresponding data line. *)
Theorem grid_reader_100_by_5 (string_lines : list string) :
  (forall i : nat, (i < 100)%nat ->
     exists line : string,
       string_lines !! (num_headers + i)%nat = Some line
       /\ row_well_formed 5 line = true) ->
  exists g : list (list spec_float),
    read_grid string_lines (10 * 10) 5 = Ok g
    /\ has_shape 100 5 g
    /\ forall (i j : nat) (line token : string),
         (i < 100)%nat ->
         string_lines !! (num_headers + i)%nat = Some line ->
         string_spectrum line !! j = Some token ->
         exists x : spec_float,
           float32_of_string token = Ok x /\ cell g i j = Some x.
Proof.
  intros Hwf.
  apply (read_grid_well_formed string_lines (10 * 10) 5);
    [reflexivity | exact Hwf].
Qed.

Lemma grid_reader_100_by_5_witness :
  exists g : list (list spec_float),
    read_grid (sample_header "10" "10" "5"
               ++ replicate 100 (data_row ["1.0"; "2.0"; "3.0"; "4.0"; "5.5"]))
              (10 * 10) 5 = Ok g
    /\ has_shape 100 5 g
    /\ exists x : spec_float,
         float32_of_string "5.5" = Ok x /\ cell g 99 4 = Some x.
Proof.
  destruct (grid_reader_100_by_5
              (sample_header "10" "10" "5"
               ++ replicate 100 (data_row ["1.0"; "2.0"; "3.0"; "4.0"; "5.5"])))
    as (g & Hg & Hshape & Hcells).
  - intros i Hi. exists (data_row ["1.0"; "2.0"; "3.0"; "4.0"; "5.5"]).
    split; [|vm_compute; reflexivity].
    rewrite lookup_app_r by (vm_compute; lia).
    apply lookup_replicate_2.
    replace (length (sample_header "10" "10" "5")) with num_headers
      by (vm_compute; reflexivity).
    lia.
  - exists g. split; [exact Hg|]. split; [exact Hshape|].
    apply (Hcells 99%nat 4%nat (data_row ["1.0"; "2.0"; "3.0"; "4.0"; "5.5"]));
      [lia | vm_compute; reflexivity | vm_compute; reflexivity].
Defined.

(** C2, as stated, fails: with a block of 50 well-formed rows the reader
    runs out of lines at the 51st position. *)
Lemma grid_reader_50_rows_fails :
  let block := replicate 50 (data_row ["1.0"; "2.0"; "3.0"; "4.0"; "5.5"]) in
  length block = 50%nat
  /\ Forall (fun line => row_well_formed 5 line = true) block
  /\ read_grid (sample_header "10" "10" "5" ++ block) (10 * 10) 5
     = Raise IndexError.
Proof.
  split; [reflexivity|]. split.
  - apply Forall_replicate. vm_compute. reflexivity.
  - vm_compute. reflexivity.
Qed.

(** Every line is the join of its tokens, the last of which may be empty
    or hold the line feed. *)
Lemma line_tokens (line : string) :
  exists (tokens : list string) (last : string),
    Forall (fun t => Py.contains Py.tab t = false) tokens
    /\ Py.contains Py.tab last = false
    /\ line = Py.join Py.tab (tokens ++ [last]).
Proof.
  destruct (exists_last (split_not_nil Py.tab line)) as (tokens & last & Hsplit).
  pose proof (split_pieces Py.tab line) as Hpieces.
  rewrite Hsplit in Hpieces. apply Forall_app in Hpieces as [Htokens Hlast].
  exists tokens, last. split; [exact Htokens|]. split.
  - inversion Hlast; assumption.
  - rewrite <- Hsplit. symmetry. apply join_split.
Qed.

(** C10. The grid reader discards the final tab-separated token of a data
    line whatever it is: the tokens it parses are all the tokens but the
    last, and the row it stores is computed from them alone.  For a line
    with no trailing tab, the last value of the line is not stored. *)
Theorem final_token_discarded (tokens : list string) (last : string) :
  Forall (fun t => Py.contains Py.tab t = false) tokens ->
  Py.contains Py.tab last = false ->
  string_spectrum (Py.join Py.tab (tokens ++ [last])) = tokens
  /\ forall (string_lines : list string) (a : list (list spec_float)) (i : nat),
       string_lines !! (num_headers + i)%nat
       = Some (Py.join Py.tab (tokens ++ [last])) ->
       read_row string_lines a i
       = (arr ← np_array_float32 tokens; set_row a i arr).
Proof.
  intros Htokens Hlast.
  assert (Hspec : string_spectrum (Py.join Py.tab (tokens ++ [last])) = tokens).
  { unfold string_spectrum, Py.drop_last. rewrite split_join.
    - apply removelast_last.
    - destruct tokens; discriminate.
    - apply Forall_app. split; [exact Htokens | repeat constructor; exact Hlast]. }
  split; [exact Hspec|].
  intros string_lines a i Hline. unfold read_row, getline.
  rewrite Hline. simpl. rewrite Hspec. reflexivity.
Qed.

Lemma final_token_discarded_witness :
  string_spectrum (Py.join Py.tab (["1"; "2"] ++ ["3"])) = ["1"; "2"].
Proof.
  apply (final_token_discarded ["1"; "2"] "3").
  - repeat constructor.
  - reflexivity.
Defined.

(** A row of three numbers and no trailing tab stores the first two. *)
Example row_without_trailing_tab :
  exists x y : spec_float,
    float32_of_string "1" = Ok x /\ float32_of_string "2" = Ok y
    /\ read_grid (sample_header "1" "1" "2" ++ [Py.join Py.tab ["1"; "2"; "3"]]) 1 2
       = Ok [[x; y]].
Proof. eexists _, _. repeat split; vm_compute; reflexivity. Qed.

(** ** The bias axis *)

Section LinspaceLength.

Variable F : Type.
Variable of_nat : nat -> F.
Variables add sub mul div : F -> F -> F.
Variable is_zero : F -> bool.

(** In any arithmetic, [linspace] returns [num] values, and raises when
    [num] is negative. *)
Lemma linspace_length (start stop : F) (num : Z) (y : list F) :
  linspace F of_nat add sub mul div is_zero start stop num = Ok y ->
  0 <= num /\ length y = Z.to_nat num.
Proof.
  unfold linspace. destruct (num <? 0) eqn:Hneg; [discriminate|].
  apply Z.ltb_ge in Hneg. intros [= <-]. split; [exact Hneg|].
  destruct (1 <? num); [rewrite length_insert|];
    rewrite length_map;
    [destruct (is_zero _)|]; rewrite length_map, length_map, length_seq;
    reflexivity.
Qed.

(** In any arithmetic, the last of two values or more is [stop] itself. *)
Lemma linspace_last (start stop : F) (num : Z) (y : list F) :
  linspace F of_nat add sub mul div is_zero start stop num = Ok y ->
  2 <= num -> last y = Some stop.
Proof.
  intros H Hnum. pose proof (linspace_length _ _ _ _ H) as [_ Hlen].
  revert H. unfold linspace.
  replace (num <? 0) with false by (symmetry; apply Z.ltb_ge; lia).
  replace (1 <? num) with true by (symmetry; apply Z.ltb_lt; lia).
  intros [= <-]. rewrite last_lookup, Hlen.
  replace (Init.Nat.pred (Z.to_nat num)) with (Z.to_nat num - 1)%nat by lia.
  apply list_lookup_insert_eq.
  destruct (is_zero _); rewrite !length_map, length_seq; lia.
Qed.

End LinspaceLength.

(** *** Order of floats *)



(** *** The axis in binary64 *)







(** The axis of the script for five values, as [numpy] computes it. *)
Example axis_of_five_values_binary64 :
  exists q0 q1 q2 q3 q4 : spec_float,
    volt_vec_b64 1 5 = Ok [q0; q1; q2; q3; q4]
    /\ Float.to_Q <$> [q0; q1; q2; q3; q4]
       = Some <$> [-4503599627370496 # 4503599627370496;
                   -4503599627370496 # 9007199254740992; 0;
                   4503599627370496 # 9007199254740992;
                   4503599627370496 # 4503599627370496]%Q.
Proof. eexists _, _, _, _, _. split; vm_compute; reflexivity. Qed.

(** Rounding can break the order without an overflow: between the smallest
    positive float and its opposite, [linspace] repeats values. *)
Example axis_binary64_subnormal :
  let tiny := S754_finite false 1 (-1074) in
  linspace_b64 (SFopp tiny) tiny 5
  = Ok [SFopp tiny; SFopp tiny; S754_zero false; tiny; tiny].
Proof. vm_compute. reflexivity. Qed.

(** ** The whole script *)

Lemma translate_lines_inv (string_lines : list string) (t : translation) :
  translate_lines string_lines = Ok t ->
  parse_header string_lines = Ok (parm_dict t)
  /\ read_dimensions (parm_dict t) = Ok (num_rows t, num_cols t, spectra_length t)
  /\ read_grid string_lines (num_rows t * num_cols t) (spectra_length t)
     = Ok (raw_data_2d t)
  /\ volt_vec_b64 max_v (spectra_length t) = Ok (spec_values t).
Proof.
  unfold translate_lines.
  destruct (parse_header string_lines) as [d|]; simpl; [|discriminate].
  destruct (read_dimensions d) as [[[rows cols] len]|] eqn:Hdim; simpl;
    [|discriminate].
  destruct (read_grid string_lines (rows * cols) len) as [raw|] eqn:Hraw; simpl;
    [|discriminate].
  destruct (volt_vec_b64 max_v len) as [axis|] eqn:Haxis; simpl; [|discriminate].
  intros [= <-]. simpl. auto.
Qed.

(** C7. After a successful translation the raw grid has
    num_rows * num_cols rows, every row of it has length spectral_length,
    and the spectroscopic axis has length spectral_length as well. *)
Theorem translation_dimensions (string_lines : list string) (t : translation) :
  translate_lines string_lines = Ok t ->
  Z.of_nat (length (raw_data_2d t)) = num_rows t * num_cols t
  /\ Forall (fun row => Z.of_nat (length row) = spectra_length t) (raw_data_2d t)
  /\ Z.of_nat (length (spec_values t)) = spectra_length t.
Proof.
  intros H. apply translate_lines_inv in H as (_ & _ & Hgrid & Haxis).
  apply read_grid_shape in Hgrid as (Hpos & Hlen & Hrows & Hcols).
  apply linspace_length in Haxis as [_ Haxis].
  split; [lia|]. split; [|lia].
  eapply Forall_impl; [exact Hcols|]. intros row Hrow. simpl in Hrow. lia.
Qed.

Lemma translation_dimensions_witness :
  exists t : translation,
    translate_lines (sample_header "1" "2" "3"
                     ++ [data_row ["1"; "2"; "3"]; data_row ["4"; "5"; "6"]])
    = Ok t
    /\ Z.of_nat (length (raw_data_2d t)) = 2
    /\ Z.of_nat (length (spec_values t)) = 3.
Proof.
  destruct (translate_lines (sample_header "1" "2" "3"
                             ++ [data_row ["1"; "2"; "3"]; data_row ["4"; "5"; "6"]]))
    as [t|e] eqn:H; [|vm_compute in H; discriminate].
  exists t. split; [reflexivity|].
  destruct (translation_dimensions _ t H) as (Hrows & _ & Haxis).
  rewrite Hrows, Haxis.
  vm_compute in H. injection H as <-. split; reflexivity.
Defined.

(** *** Runs *)

Lemma step_deterministic (s s1 s2 : stage) :
  step s s1 -> step s s2 -> s1 = s2.
Proof.
  intros H1 H2.
  destruct H1; inversion H2; subst; try reflexivity; congruence.
Qed.

Lemma final_no_step (s s' : stage) : final s -> ~ step s s'.
Proof. intros Hf Hs. destruct Hs; exact Hf. Qed.

Lemma steps_deterministic (s s1 s2 : stage) :
  steps s s1 -> final s1 -> steps s s2 -> final s2 -> s1 = s2.
Proof.
  intros H1. revert s2. induction H1 as [s|s a s1 Hstep Hrest IH];
    intros s2 Hf1 H2 Hf2.
  - destruct H2 as [|s b s2 Hstep _]; [reflexivity|].
    exfalso. exact (final_no_step _ _ Hf1 Hstep).
  - destruct H2 as [s|s b s2 Hstep' Hrest'].
    + exfalso. exact (final_no_step _ _ Hf2 Hstep).
    + rewrite (step_deterministic _ _ _ Hstep' Hstep) in Hrest'.
      exact (IH _ Hf1 Hrest' Hf2).
Qed.

(** Every text has a run, the one the function [translate] computes. *)
Lemma translate_runs (text : string) : runs text (outcome text).
Proof.
  unfold runs, outcome, translate, translate_lines.
  set (ls := readlines text).
  assert (Hload : step (NotStarted text) (Loaded ls)) by apply step_load.
  destruct (parse_header ls) as [d|e] eqn:Hd; simpl.
  2:{ split; [|exact I].
      eapply steps_next; [exact Hload|].
      eapply steps_next; [apply step_header_raise, Hd | apply steps_refl]. }
  destruct (read_dimensions d) as [[[rows cols] len]|e] eqn:Hdim; simpl.
  2:{ split; [|exact I].
      eapply steps_next; [exact Hload|].
      eapply steps_next; [apply step_header_ok, Hd|].
      eapply steps_next; [apply step_dimensions_raise, Hdim | apply steps_refl]. }
  destruct (read_grid ls (rows * cols) len) as [raw|e] eqn:Hraw; simpl.
  2:{ split; [|exact I].
      eapply steps_next; [exact Hload|].
      eapply steps_next; [apply step_header_ok, Hd|].
      eapply steps_next; [eapply step_grid_raise; eassumption | apply steps_refl]. }
  destruct (volt_vec_b64 max_v len) as [axis|e] eqn:Haxis; simpl.
  - split; [|exact I].
    eapply steps_next; [exact Hload|].
    eapply steps_next; [apply step_header_ok, Hd|].
    eapply steps_next; [eapply step_grid_ok; eassumption|].
    eapply steps_next; [apply step_axes_ok, Haxis | apply steps_refl].
  - split; [|exact I].
    eapply steps_next; [exact Hload|].
    eapply steps_next; [apply step_header_ok, Hd|].
    eapply steps_next; [eapply step_grid_ok; eassumption|].
    eapply steps_next; [apply step_axes_raise, Haxis | apply steps_refl].
Qed.

(** C9. The pipeline is deterministic: two runs on the same source text
    end in the same state, so that when they succeed their Raw_Data,
    Position_Values and Spectroscopic_Values are identical element for
    element. *)
Theorem translation_deterministic (text : string) (s1 s2 : stage) :
  runs text s1 -> runs text s2 ->
  s1 = s2
  /\ forall t1 t2 : translation,
       s1 = BuiltAxes t1 -> s2 = BuiltAxes t2 ->
       Raw_Data t1 = Raw_Data t2
       /\ Position_Values t1 = Position_Values t2
       /\ Spectroscopic_Values t1 = Spectroscopic_Values t2.
Proof.
  intros [H1 F1] [H2 F2].
  pose proof (steps_deterministic _ _ _ H1 F1 H2 F2) as Heq.
  split; [exact Heq|].
  intros t1 t2 -> ->. injection Heq as ->. auto.
Qed.

(** The sample text has a run that succeeds. *)
Lemma sample_run : exists t : translation, runs sample_text (BuiltAxes t).
Proof.
  generalize (translate_runs sample_text). unfold outcome.
  destruct (translate sample_text) as [t|e] eqn:H; intros Hrun.
  - exists t. exact Hrun.
  - vm_compute in H. discriminate.
Qed.

Lemma translation_deterministic_witness :
  exists t : translation,
    runs sample_text (BuiltAxes t) /\ translate sample_text = Ok t.
Proof.
  destruct sample_run as [t Ht]. exists t. split; [exact Ht|].
  pose proof (proj1 (translation_deterministic sample_text (BuiltAxes t)
                       (outcome sample_text) Ht (translate_runs sample_text)))
    as Heq.
  revert Heq. unfold outcome. destruct (translate sample_text) as [t'|e]; intros Heq;
    [injection Heq as ->; reflexivity | discriminate].
Defined.

(** * Further properties of the script *)

(** ** The header parser *)

(** X1. The header parser succeeds exactly when every line of the parsed
    range has an equals sign, and the only exception it raises is
    [IndexError]. *)
Theorem parse_header_outcome (string_lines : list string) :
  (is_ok (parse_header string_lines) = true
   <-> Forall (fun line => Py.contains "=" line = true)
              (header_lines string_lines))
  /\ forall e : exn, parse_header string_lines = Raise e -> e = IndexError.
Proof.
  unfold parse_header. split; [split|].
  - destruct (for_each header_step (header_lines string_lines) ∅) as [d|e] eqn:H;
      [|discriminate].
    intros _. apply Forall_forall. intros line Hin.
    destruct (for_each_ok _ _ _ _ H line Hin) as (a & a' & Ha).
    eapply header_step_ok, Ha.
  - intros Hall. rewrite Forall_forall in Hall.
    destruct (for_each_total header_step (header_lines string_lines) ∅) as [d Hd].
    + intros a x Hx. unfold header_step.
      destruct (header_entry_cases x) as [[_ [[k v] Hkv]]|[Hc _]].
      * rewrite Hkv. simpl. eauto.
      * rewrite (Hall x Hx) in Hc. discriminate.
    + rewrite Hd. reflexivity.
  - intros e H. destruct (for_each_raise _ _ _ _ H) as (x & a & _ & Hx).
    apply header_step_raise in Hx as [-> _]. reflexivity.
Qed.

Lemma parse_header_outcome_witness :
  is_ok (parse_header (sample_header "1" "2" "3")) = true
  /\ parse_header (replicate 3 "" ++ ["no equals sign"]) = Raise IndexError.
Proof.
  split.
  - apply (proj1 (parse_header_outcome (sample_header "1" "2" "3"))).
    vm_compute. repeat constructor.
  - destruct (parse_header (replicate 3 "" ++ ["no equals sign"])) as [d|e] eqn:H;
      [vm_compute in H; discriminate|].
    f_equal.
    exact (proj2 (parse_header_outcome (replicate 3 "" ++ ["no equals sign"])) e H).
Defined.

Lemma header_lines_middle (pre mid post : list string) :
  length pre = 3%nat -> length mid = 14%nat ->
  header_lines (pre ++ mid ++ post) = mid.
Proof.
  intros Hpre Hmid. unfold header_lines, Py.slice.
  rewrite drop_app_length' by (symmetry; exact Hpre).
  apply take_app_length'. simpl. symmetry. exact Hmid.
Qed.

(** X2. Only the fourth to the seventeenth line of the file are parsed as
    parameters: the three lines before them and all lines after them have
    no effect on the outcome of the header parser. *)
Theorem parse_header_frame (pre pre' mid post post' : list string) :
  length pre = 3%nat -> length pre' = 3%nat -> length mid = 14%nat ->
  parse_header (pre ++ mid ++ post) = parse_header (pre' ++ mid ++ post')
  /\ parse_header (pre ++ mid ++ post) = for_each header_step mid ∅.
Proof.
  intros Hpre Hpre' Hmid. unfold parse_header.
  rewrite !header_lines_middle by assumption. split; reflexivity.
Qed.

Lemma parse_header_frame_witness :
  parse_header (replicate 3 "" ++ replicate 14 (header_line "k" "1")
                ++ ["no equals sign"])
  = parse_header (replicate 3 "x" ++ replicate 14 (header_line "k" "1") ++ []).
Proof.
  apply (parse_header_frame (replicate 3 "") (replicate 3 "x")
           (replicate 14 (header_line "k" "1")) ["no equals sign"] []);
    reflexivity.
Defined.

Lemma for_each_header_size (xs : list string) (acc d : gmap string value) :
  for_each header_step xs acc = Ok d ->
  (size d <= size acc + length xs)%nat.
Proof.
  revert acc. induction xs as [|x xs IH]; intros acc H; simpl in H.
  - injection H as <-. simpl. lia.
  - unfold header_step at 1 in H.
    destruct (header_entry x) as [[k v]|]; [|discriminate]. simpl in H.
    apply IH in H. simpl.
    pose proof (map_size_insert k v acc) as Hsize.
    destruct (acc !! k); unfold id in Hsize; lia.
Qed.

(** X3. The parameter mapping has at most fourteen entries, and no more
    than the file has lines after the third; a file of three lines or
    fewer is parsed without an exception, into the empty mapping. *)
Theorem parse_header_size (string_lines : list string) :
  (forall d : gmap string value,
      parse_header string_lines = Ok d ->
      (size d <= 14)%nat /\ (size d <= length string_lines - 3)%nat)
  /\ ((length string_lines <= 3)%nat -> parse_header string_lines = Ok ∅).
Proof.
  split.
  - intros d H. unfold parse_header in H.
    apply for_each_header_size in H. rewrite map_size_empty in H.
    assert (Hlen : (length (header_lines string_lines)
                    <= Nat.min 14 (length string_lines - 3))%nat).
    { unfold header_lines, Py.slice. rewrite length_take, length_drop. lia. }
    split; lia.
  - intros Hshort. unfold parse_header, header_lines, Py.slice.
    rewrite drop_ge by exact Hshort. reflexivity.
Qed.

Lemma parse_header_size_witness :
  (exists d : gmap string value,
     parse_header (replicate 3 "" ++ [header_line "a" "1"; header_line "a" "2"])
     = Ok d
     /\ (size d <= 2)%nat)
  /\ parse_header ["one line"; "and another"] = Ok ∅.
Proof.
  split.
  - assert (Hd : exists d, parse_header (replicate 3 "" ++ [header_line "a" "1";
                                                             header_line "a" "2"])
                           = Ok d)
      by (eexists; vm_compute; reflexivity).
    destruct Hd as [d H]. exists d. split; [exact H|].
    exact (proj2 (proj1 (parse_header_size _) d H)).
  - apply (proj2 (parse_header_size ["one line"; "and another"])). simpl. lia.
Defined.

Lemma for_each_header_keys (xs : list string) (acc d : gmap string value)
    (key : string) :
  for_each header_step xs acc = Ok d ->
  (is_Some (d !! key)
   <-> is_Some (acc !! key)
       \/ exists line : string, line ∈ xs /\ header_key line = Some key).
Proof.
  revert acc. induction xs as [|x xs IH]; intros acc H; simpl in H.
  - injection H as <-. split; [auto|].
    intros [H|(line & Hin & _)]; [exact H | inversion Hin].
  - unfold header_step at 1 in H.
    destruct (header_entry x) as [[k v]|] eqn:Hx; [|discriminate]. simpl in H.
    rewrite (IH _ H), lookup_insert_is_Some'. split.
    + intros [[->|Hacc]|(line & Hin & Hkey)].
      * right. exists x. split; [left|]. unfold header_key. rewrite Hx. reflexivity.
      * left. exact Hacc.
      * right. exists line. split; [right; exact Hin | exact Hkey].
    + intros [Hacc|(line & Hin & Hkey)]; [left; right; exact Hacc|].
      apply elem_of_cons in Hin as [->|Hin].
      * left. left. unfold header_key in Hkey. rewrite Hx in Hkey. congruence.
      * right. exists line. split; assumption.
Qed.

(** X4. The keys of the parameter mapping are exactly the keys of the
    lines of the parsed range. *)
Theorem parse_header_keys (string_lines : list string) (d : gmap string value)
    (key : string) :
  parse_header string_lines = Ok d ->
  (is_Some (d !! key)
   <-> exists line : string,
         line ∈ header_lines string_lines /\ header_key line = Some key).
Proof.
  intros H. unfold parse_header in H.
  rewrite (for_each_header_keys _ _ _ key H), lookup_empty. split.
  - intros [[v Hv]|Hline]; [discriminate | exact Hline].
  - intros Hline. right. exact Hline.
Qed.

Lemma parse_header_keys_witness :
  exists d : gmap string value,
    parse_header (sample_header "1" "2" "3") = Ok d
    /\ is_Some (d !! "z-points") /\ ~ is_Some (d !! "max_v").
Proof.
  assert (Hd : exists d, parse_header (sample_header "1" "2" "3") = Ok d)
    by (eexists; vm_compute; reflexivity).
  destruct Hd as [d H]. exists d. split; [exact H|]. split.
  - apply (parse_header_keys _ d "z-points" H).
    exists (header_line "z-points" "3"). split; [|vm_compute; reflexivity].
    vm_compute. do 2 right. left.
  - intros Hsome. apply (parse_header_keys _ d "max_v" H) in Hsome.
    destruct Hsome as (line & Hin & Hkey). vm_compute in Hin.
    repeat (apply elem_of_cons in Hin as [->|Hin];
            [vm_compute in Hkey; discriminate|]).
    inversion Hin.
Defined.

(** *** What the mapping holds *)

Lemma lstrip_starts (s : string) :
  match Py.lstrip s with
  | EmptyString => True
  | String c _ => Py.isspace c = false
  end.
Proof.
  induction s as [|c s IH]; simpl; [exact I|].
  destruct (Py.isspace c) eqn:E; [exact IH | exact E].
Qed.

Lemma rstrip_idempotent (s : string) : Py.rstrip (Py.rstrip s) = Py.rstrip s.
Proof.
  induction s as [|c s IH]; [reflexivity|]. simpl.
  destruct (Py.rstrip s) as [|a r] eqn:E.
  - destruct (Py.isspace c) eqn:Hc; [reflexivity|]. simpl. rewrite Hc. reflexivity.
  - simpl in IH. simpl. destruct (Py.rstrip r) as [|b r'] eqn:Er.
    + destruct (Py.isspace a); [discriminate | rewrite IH; reflexivity].
    + rewrite IH. reflexivity.
Qed.

Lemma strip_idempotent (s : string) : Py.strip (Py.strip s) = Py.strip s.
Proof.
  unfold Py.strip. pose proof (lstrip_starts s) as Hs.
  destruct (Py.lstrip s) as [|c u]; [reflexivity|].
  assert (Hl : Py.lstrip (Py.rstrip (String c u)) = Py.rstrip (String c u)).
  { cbn [Py.rstrip]. destruct (Py.rstrip u); rewrite ?Hs; cbn [Py.lstrip];
      rewrite Hs; reflexivity. }
  rewrite Hl. apply rstrip_idempotent.
Qed.

Lemma contains_lstrip (c : ascii) (s : string) :
  Py.contains c s = false -> Py.contains c (Py.lstrip s) = false.
Proof.
  induction s as [|a s IH]; [reflexivity|]. simpl. intros H.
  destruct (Py.isspace a); [|exact H].
  apply IH. apply orb_false_iff in H as [_ H]. exact H.
Qed.

Lemma contains_rstrip (c : ascii) (s : string) :
  Py.contains c s = false -> Py.contains c (Py.rstrip s) = false.
Proof.
  induction s as [|a s IH]; [reflexivity|]. simpl. intros H.
  apply orb_false_iff in H as [Ha Hs]. specialize (IH Hs).
  destruct (Py.rstrip s) as [|b r].
  - destruct (Py.isspace a); [reflexivity|]. simpl. rewrite Ha. reflexivity.
  - simpl. simpl in IH. rewrite Ha, IH. reflexivity.
Qed.

Lemma contains_strip (c : ascii) (s : string) :
  Py.contains c s = false -> Py.contains c (Py.strip s) = false.
Proof. intros H. apply contains_rstrip, contains_lstrip, H. Qed.

(** After [line.replace('\n', '')] no line feed is left. *)
Lemma replace_newline_none (s : string) :
  Py.contains Py.newline (Py.replace (String Py.newline "") "" s) = false.
Proof.
  unfold Py.replace. induction s as [|a s IH]; [reflexivity|].
  cbn [Py.replace_from String.prefix String.length Nat.pred].
  destruct (ascii_dec Py.newline a) as [<-|Hne].
  - replace (String.prefix "" s) with true by (destruct s; reflexivity).
    rewrite append_nil. exact IH.
  - simpl. rewrite IH.
    destruct (Ascii.eqb a Py.newline) eqn:E; [|reflexivity].
    apply Ascii.eqb_eq in E. congruence.
Qed.

Lemma split_pieces_without (c sep : ascii) (s : string) :
  Py.contains c s = false ->
  Forall (fun p => Py.contains c p = false) (Py.split sep s).
Proof.
  induction s as [|a s IH]; simpl; [repeat constructor|]. intros H.
  apply orb_false_iff in H as [Ha Hs]. specialize (IH Hs).
  destruct (Ascii.eqb a sep); [constructor; [reflexivity | exact IH]|].
  destruct (Py.split sep s) as [|h t];
    [repeat constructor; simpl; rewrite Ha; reflexivity|].
  inversion IH as [|? ? Hh Ht]; subst.
  constructor; [simpl; rewrite Ha, Hh; reflexivity | exact Ht].
Qed.

Lemma header_entry_inv (line key : string) (v : value) :
  header_entry line = Ok (key, v) ->
  exists (t0 t1 : string) (rest : list string),
    split_header_line line = t0 :: t1 :: rest
    /\ key = Py.strip t0 /\ coerce (Py.strip t1) = Ok v.
Proof.
  unfold header_entry.
  destruct (split_header_line line) as [|t0 [|t1 rest]]; simpl; try discriminate.
  destruct (coerce (Py.strip t1)) as [v'|] eqn:Hv; simpl; [|discriminate].
  intros [= <- <-]. eauto 6.
Qed.

Lemma coerce_settled (s : string) (v : value) :
  trimmed s -> coerce s = Ok v -> settled v.
Proof.
  intros Hs. unfold coerce.
  destruct (Float.of_string s) as [x|] eqn:Hx.
  - destruct (Float.mod1_is_zero x) eqn:Hm.
    + destruct (mod1_is_zero_integer x Hm) as (q & n & _ & Hn & _).
      rewrite Hn. intros [= <-]. exact I.
    + intros [= <-]. exact Hm.
  - intros [= <-]. split; assumption.
Qed.

(** X5. Every key of the parameter mapping is trimmed (no whitespace at
    either end) and holds neither an equals sign nor a line feed. *)
Theorem parse_header_keys_trimmed (string_lines : list string)
    (d : gmap string value) (key : string) :
  parse_header string_lines = Ok d ->
  is_Some (d !! key) ->
  trimmed key
  /\ Py.contains "=" key = false
  /\ Py.contains Py.newline key = false.
Proof.
  intros H Hkey. unfold parse_header in H.
  apply (for_each_header_keys _ _ _ key H) in Hkey.
  destruct Hkey as [[v Hv]|(line & _ & Hline)]; [rewrite lookup_empty in Hv; discriminate|].
  unfold header_key in Hline.
  destruct (header_entry line) as [[k v]|] eqn:He; [|discriminate].
  injection Hline as ->.
  apply header_entry_inv in He as (t0 & t1 & rest & Hsplit & -> & _).
  unfold split_header_line in Hsplit.
  pose proof (split_pieces "=" (clean_header_line line)) as Heq.
  pose proof (split_pieces_without Py.newline "=" (clean_header_line line)
                (replace_newline_none _)) as Hnl.
  rewrite Hsplit in Heq, Hnl.
  inversion Heq; subst. inversion Hnl; subst.
  split; [apply strip_idempotent|].
  split; apply contains_strip; assumption.
Qed.

Lemma parse_header_keys_trimmed_witness :
  exists d : gmap string value,
    parse_header (replicate 3 "" ++ ["#    x-pixels   = 7"]) = Ok d
    /\ is_Some (d !! "x-pixels") /\ trimmed "x-pixels".
Proof.
  assert (Hd : exists d, parse_header (replicate 3 "" ++ ["#    x-pixels   = 7"])
                         = Ok d)
    by (eexists; vm_compute; reflexivity).
  destruct Hd as [d H]. exists d.
  assert (Hsome : is_Some (d !! "x-pixels")).
  { apply (for_each_header_keys _ _ _ "x-pixels" H). right.
    exists "#    x-pixels   = 7". split; [vm_compute; left | vm_compute; reflexivity]. }
  split; [exact H|]. split; [exact Hsome|].
  exact (proj1 (parse_header_keys_trimmed _ d "x-pixels" H Hsome)).
Defined.

Lemma header_values_settled (string_lines : list string)
    (d : gmap string value) (key : string) (v : value) :
  parse_header string_lines = Ok d ->
  d !! key = Some v ->
  settled v.
Proof.
  intros H. revert key v. unfold parse_header in H.
  refine (for_each_invariant
            (fun m : gmap string value => forall k v, m !! k = Some v -> settled v)
            header_step _ _ _ _ _ H).
  - intros a a' line _ Ha Hstep k v. unfold header_step in Hstep.
    destruct (header_entry line) as [[k' v']|] eqn:He; [|discriminate].
    injection Hstep as <-.
    rewrite lookup_insert_Some. intros [[-> ->]|[_ Hk]]; [|eapply Ha, Hk].
    apply header_entry_inv in He as (t0 & t1 & rest & _ & _ & Hc).
    eapply coerce_settled; [apply strip_idempotent | exact Hc].
  - intros k v Hk. rewrite lookup_empty in Hk. discriminate.
Qed.

(** X6. Every value of the parameter mapping is settled: a stored string
    is trimmed and is not a float literal, and a stored float does not
    stand for an integer (such a float is stored as the integer). *)
Theorem parse_header_values_settled (string_lines : list string)
    (d : gmap string value) (key : string) (v : value) :
  parse_header string_lines = Ok d ->
  d !! key = Some v ->
  settled v
  /\ (forall s : string, v = PyStr s -> Float.of_string s = None)
  /\ (forall (x : spec_float) (q : Q),
        v = PyFloat x -> Float.to_Q x = Some q -> ~ is_integer q).
Proof.
  intros H Hv. pose proof (header_values_settled _ _ _ _ H Hv) as Hs.
  split; [exact Hs|]. split.
  - intros s ->. exact (proj1 Hs).
  - intros x q -> Hq. eapply mod1_not_zero_fraction; [exact Hs | exact Hq].
Qed.

Lemma parse_header_values_settled_witness :
  exists d : gmap string value,
    parse_header (replicate 3 "" ++ [header_line "bias" "0.5"]) = Ok d
    /\ exists v : value, d !! "bias" = Some v /\ settled v.
Proof.
  assert (Hd : exists d, parse_header (replicate 3 "" ++ [header_line "bias" "0.5"])
                         = Ok d)
    by (eexists; vm_compute; reflexivity).
  destruct Hd as [d H]. exists d. split; [exact H|].
  assert (Hsome : is_Some (d !! "bias")).
  { apply (for_each_header_keys _ _ _ "bias" H). right.
    exists (header_line "bias" "0.5"). split; [vm_compute; left | vm_compute; reflexivity]. }
  destruct Hsome as [v Hv]. exists v. split; [exact Hv|].
  exact (proj1 (parse_header_values_settled _ d "bias" v H Hv)).
Defined.

(** ** The dimensions *)

(** A string that [float()] rejects, [int()] rejects as well. *)
Lemma int_of_string_not_float (s : string) :
  Float.of_string s = None -> int_of_string s = Raise ValueError.
Proof.
  unfold Float.of_string, int_of_string.
  destruct (Float.remove_underscores "000" (Float.to_ascii s)) as [t|];
    [|reflexivity].
  set (u := Float.c_rstrip (Float.c_lstrip t)).
  destruct (Float.parse_inf_or_nan u); [discriminate|].
  unfold Float.parse_decimal.
  destruct (Float.take_sign u) as [neg r].
  destruct (Float.span_digits r) as [d rest].
  destruct d as [|a d']; [reflexivity|].
  destruct rest as [|b rest']; [discriminate | reflexivity].
Qed.

Lemma py_int_settled (v : value) (n : Z) :
  settled v -> py_int v = Ok n -> is_number v.
Proof.
  destruct v as [m|x|s]; simpl.
  - intros _ _. exact I.
  - intros _. destruct x; simpl; try discriminate; eauto.
  - intros [Hs _]. rewrite (int_of_string_not_float s Hs). discriminate.
Qed.

Lemma py_int_number (v : value) : is_number v -> exists n : Z, py_int v = Ok n.
Proof.
  destruct v as [m|x|s]; simpl; [eauto | | contradiction].
  destruct x; simpl; intros [q Hq]; try discriminate; eauto.
Qed.

Lemma translate_lines_dimensions (string_lines : list string)
    (d : gmap string value) (e : exn) :
  parse_header string_lines = Ok d ->
  read_dimensions d = Raise e ->
  translate_lines string_lines = Raise e.
Proof.
  intros Hd He. unfold translate_lines. rewrite Hd. simpl. rewrite He. reflexivity.
Qed.

(** X7. When the header is parsed and no line of the parsed range has the
    key [y-pixels], the script stops with [KeyError] for that key, whatever
    the data lines are; with [y-pixels] a number and no [x-pixels], it
    stops with [KeyError] for [x-pixels]; and with both numbers and no
    [z-points], with [KeyError] for [z-points]. *)
Theorem missing_parameter (string_lines : list string) (d : gmap string value) :
  parse_header string_lines = Ok d ->
  ((forall line : string,
       line ∈ header_lines string_lines -> header_key line <> Some "y-pixels") ->
   translate_lines string_lines = Raise (KeyError "y-pixels"))
  /\ (forall vy : value,
        d !! "y-pixels" = Some vy -> is_number vy ->
        d !! "x-pixels" = None ->
        translate_lines string_lines = Raise (KeyError "x-pixels"))
  /\ (forall vy vx : value,
        d !! "y-pixels" = Some vy -> is_number vy ->
        d !! "x-pixels" = Some vx -> is_number vx ->
        d !! "z-points" = None ->
        translate_lines string_lines = Raise (KeyError "z-points")).
Proof.
  intros Hd. split; [|split].
  - intros Hnone. apply (translate_lines_dimensions _ d); [exact Hd|].
    unfold parse_header in Hd.
    pose proof (for_each_header_other _ _ _ "y-pixels" Hd Hnone) as Hy.
    rewrite lookup_empty in Hy.
    unfold read_dimensions, getitem. rewrite Hy. reflexivity.
  - intros vy Hy Hny Hx. apply (translate_lines_dimensions _ d); [exact Hd|].
    destruct (py_int_number vy Hny) as [n Hn].
    unfold read_dimensions, getitem. rewrite Hy. simpl. rewrite Hn. simpl.
    rewrite Hx. reflexivity.
  - intros vy vx Hy Hny Hx Hnx Hz.
    apply (translate_lines_dimensions _ d); [exact Hd|].
    destruct (py_int_number vy Hny) as [n Hn].
    destruct (py_int_number vx Hnx) as [m Hm].
    unfold read_dimensions, getitem. rewrite Hy. simpl. rewrite Hn. simpl.
    rewrite Hx. simpl. rewrite Hm. simpl. rewrite Hz. reflexivity.
Qed.

Lemma missing_parameter_witness :
  translate_lines (replicate 3 "" ++ replicate 14 (header_line "x-pixels" "4"))
  = Raise (KeyError "y-pixels").
Proof.
  assert (Hd : exists d, parse_header (replicate 3 ""
                                       ++ replicate 14 (header_line "x-pixels" "4"))
                         = Ok d)
    by (eexists; vm_compute; reflexivity).
  destruct Hd as [d H].
  apply (proj1 (missing_parameter _ d H)).
  intros line Hin. vm_compute in Hin.
  repeat (apply elem_of_cons in Hin as [->|Hin]; [vm_compute; discriminate|]).
  inversion Hin.
Defined.

(** X8. A required parameter that the header stores as a string (a value
    that is not a float literal) makes the script stop with [ValueError]
    at [int(parm_dict['y-pixels'])]. *)
Theorem string_dimension_raises (string_lines : list string)
    (d : gmap string value) (s : string) :
  parse_header string_lines = Ok d ->
  d !! "y-pixels" = Some (PyStr s) ->
  translate_lines string_lines = Raise ValueError.
Proof.
  intros Hd Hy. apply (translate_lines_dimensions _ d); [exact Hd|].
  destruct (header_values_settled _ _ _ _ Hd Hy) as [Hs _].
  unfold read_dimensions, getitem. rewrite Hy. simpl.
  rewrite (int_of_string_not_float s Hs). reflexivity.
Qed.

Lemma string_dimension_raises_witness :
  translate_lines (sample_header "ten" "2" "3") = Raise ValueError.
Proof.
  assert (Hd : exists d, parse_header (sample_header "ten" "2" "3") = Ok d
                         /\ d !! "y-pixels" = Some (PyStr "ten")).
  { eexists. split; vm_compute; reflexivity. }
  destruct Hd as (d & H & Hy).
  exact (string_dimension_raises _ d "ten" H Hy).
Defined.

Lemma read_dimensions_inv (d : gmap string value) (rows cols len : Z) :
  read_dimensions d = Ok (rows, cols, len) ->
  exists vy vx vz : value,
    (d !! "y-pixels" = Some vy /\ py_int vy = Ok rows)
    /\ (d !! "x-pixels" = Some vx /\ py_int vx = Ok cols)
    /\ (d !! "z-points" = Some vz /\ py_int vz = Ok len).
Proof.
  unfold read_dimensions, getitem.
  destruct (d !! "y-pixels") as [vy|]; simpl; [|discriminate].
  destruct (py_int vy) as [r|] eqn:Hr; simpl; [|discriminate].
  destruct (d !! "x-pixels") as [vx|]; simpl; [|discriminate].
  destruct (py_int vx) as [c|] eqn:Hc; simpl; [|discriminate].
  destruct (d !! "z-points") as [vz|]; simpl; [|discriminate].
  destruct (py_int vz) as [l|] eqn:Hl; simpl; [|discriminate].
  intros [= <- <- <-]. exists vy, vx, vz. auto.
Qed.

(** X9. After a successful run the parameter mapping holds the three
    required parameters [y-pixels], [x-pixels] and [z-points], each as a
    number (an integer or a finite float), and the dimensions are their
    values converted by [int]. *)
Theorem required_parameters (string_lines : list string) (t : translation) :
  translate_lines string_lines = Ok t ->
  exists vy vx vz : value,
    (parm_dict t !! "y-pixels" = Some vy /\ is_number vy
     /\ py_int vy = Ok (num_rows t))
    /\ (parm_dict t !! "x-pixels" = Some vx /\ is_number vx
        /\ py_int vx = Ok (num_cols t))
    /\ (parm_dict t !! "z-points" = Some vz /\ is_number vz
        /\ py_int vz = Ok (spectra_length t)).
Proof.
  intros H. apply translate_lines_inv in H as (Hd & Hdim & _ & _).
  apply read_dimensions_inv in Hdim
    as (vy & vx & vz & [Hy Hny] & [Hx Hnx] & [Hz Hnz]).
  exists vy, vx, vz.
  repeat split; try assumption;
    eapply py_int_settled; try eassumption;
    eapply header_values_settled; eassumption.
Qed.

Lemma required_parameters_witness :
  exists (t : translation) (vy : value),
    translate_lines (sample_header "1" "2" "3"
                     ++ [data_row ["1"; "2"; "3"]; data_row ["4"; "5"; "6"]])
    = Ok t
    /\ parm_dict t !! "y-pixels" = Some vy /\ is_number vy.
Proof.
  assert (Ht : exists t, translate_lines
                           (sample_header "1" "2" "3"
                            ++ [data_row ["1"; "2"; "3"]; data_row ["4"; "5"; "6"]])
                         = Ok t)
    by (eexists; vm_compute; reflexivity).
  destruct Ht as [t H].
  destruct (required_parameters _ t H) as (vy & _ & _ & (Hy & Hny & _) & _).
  exists t, vy. auto.
Defined.

(** ** The grid reader, continued *)

Lemma read_row_ok_inv (string_lines : list string) (rows cols : nat)
    (a a' : list (list spec_float)) (i : nat) :
  has_shape rows cols a -> (i < rows)%nat ->
  read_row string_lines a i = Ok a' ->
  exists line : string,
    string_lines !! (num_headers + i)%nat = Some line
    /\ row_accepted cols line = true.
Proof.
  intros Hshape Hi Hrow.
  destruct (string_lines !! (num_headers + i)%nat) as [line|] eqn:Hline.
  - exists line. split; [reflexivity|].
    destruct (row_accepted cols line) eqn:Hacc; [reflexivity|].
    rewrite (read_row_rejected _ _ _ _ _ _ Hshape Hi Hline Hacc) in Hrow.
    discriminate.
  - rewrite (read_row_missing _ _ _ Hline) in Hrow. discriminate.
Qed.

Lemma read_rows_ok_inv (string_lines : list string) (rows cols : nat) (k : nat) :
  forall (s : nat) (a a' : list (list spec_float)),
    has_shape rows cols a -> (s + k <= rows)%nat ->
    for_each (read_row string_lines) (seq s k) a = Ok a' ->
    forall j : nat, (s <= j < s + k)%nat ->
      exists line : string,
        string_lines !! (num_headers + j)%nat = Some line
        /\ row_accepted cols line = true.
Proof.
  induction k as [|k IH]; intros s a a' Hshape Hk Hrun j Hj; [lia|].
  simpl in Hrun.
  destruct (read_row string_lines a s) as [a1|] eqn:Hrow; [|discriminate].
  destruct (Nat.eq_dec j s) as [->|Hne].
  - eapply read_row_ok_inv; [exact Hshape | lia | exact Hrow].
  - eapply (IH (S s) a1 a'); [|lia|exact Hrun|lia].
    eapply read_row_shape; eassumption.
Qed.

Lemma set_row_raise (a : list (list spec_float)) (i : nat)
    (v : list spec_float) (e : exn) :
  set_row a i v = Raise e -> e = IndexError \/ e = ValueError.
Proof.
  unfold set_row. destruct (a !! i) as [row|]; [|intros [= <-]; auto].
  destruct (length v =? length row)%nat; [discriminate|].
  destruct v as [|x [|y v]]; try discriminate; intros [= <-]; auto.
Qed.

Lemma read_row_raise (string_lines : list string)
    (a : list (list spec_float)) (i : nat) (e : exn) :
  read_row string_lines a i = Raise e -> e = IndexError \/ e = ValueError.
Proof.
  unfold read_row, getline.
  destruct (string_lines !! (num_headers + i)%nat) as [line|]; simpl;
    [|intros [= <-]; auto].
  destruct (np_array_float32 (string_spectrum line)) as [arr|e'] eqn:Harr; simpl.
  - apply set_row_raise.
  - intros [= <-]. right. eapply np_array_float32_raise, Harr.
Qed.

Lemma read_grid_ok_inv (string_lines : list string) (num_pos len : Z)
    (g : list (list spec_float)) :
  read_grid string_lines num_pos len = Ok g ->
  shape_allowed num_pos len = true
  /\ rows_accepted string_lines (Z.to_nat len) (Z.to_nat num_pos).
Proof.
  intros Hg. unfold read_grid in Hg.
  destruct (np_zeros num_pos len) as [a|] eqn:Ha; [|discriminate]. simpl in Hg.
  pose proof (np_zeros_allowed _ _ _ Ha) as Hallowed.
  apply np_zeros_shape in Ha as (Hr & Hc & Hshape).
  split; [exact Hallowed|].
  intros j Hj.
  refine (read_rows_ok_inv _ _ _ (Z.to_nat num_pos) 0%nat a g Hshape _ Hg j _);
    lia.
Qed.

(** X10. The grid reader succeeds exactly when [numpy] makes the array
    (neither dimension is negative, and four bytes times the dimensions,
    zero counted as one, is at most [2^63 - 1]) and each of the [num_pos]
    lines after the 403 header lines is there and is accepted (its tokens
    before the last are numeric and are [spectra_length] many, or one);
    the exceptions it raises are [IndexError] and [ValueError] only. *)
Theorem read_grid_outcome (string_lines : list string) (num_pos len : Z) :
  (is_ok (read_grid string_lines num_pos len) = true
   <-> 0 <= num_pos /\ 0 <= len
       /\ 4 * Z.max 1 num_pos * Z.max 1 len <= 2 ^ 63 - 1
       /\ rows_accepted string_lines (Z.to_nat len) (Z.to_nat num_pos))
  /\ forall e : exn,
       read_grid string_lines num_pos len = Raise e ->
       e = IndexError \/ e = ValueError.
Proof.
  split; [split|].
  - destruct (read_grid string_lines num_pos len) as [g|] eqn:Hg; [|discriminate].
    intros _. apply read_grid_ok_inv in Hg as [Hallowed Hacc].
    apply shape_allowed_size in Hallowed as (Hr & Hc & Hsize).
    auto.
  - intros (Hr & Hc & Hsize & Hacc).
    assert (Hallowed : shape_allowed num_pos len = true)
      by (apply shape_allowed_size; auto).
    destruct (read_grid_accepted _ _ _ Hallowed Hacc) as (g & Hg & _).
    rewrite Hg. reflexivity.
  - intros e. unfold read_grid.
    destruct (np_zeros num_pos len) as [a|e'] eqn:Ha; simpl.
    + intros H. destruct (for_each_raise _ _ _ _ H) as (x & b & _ & Hx).
      eapply read_row_raise, Hx.
    + unfold np_zeros in Ha.
      destruct (shape_allowed num_pos len); [discriminate|].
      injection Ha as <-. intros [= <-]. auto.
Qed.

Lemma read_grid_outcome_witness :
  is_ok (read_grid (sample_header "1" "2" "1"
                    ++ [data_row ["1"]; data_row ["2"]]) 2 1) = true.
Proof.
  apply (proj1 (read_grid_outcome _ 2 1)).
  split; [lia|]. split; [lia|]. split; [lia|].
  intros j Hj. destruct j as [|[|j]]; [..|simpl in Hj; lia].
  - exists (data_row ["1"]). split; vm_compute; reflexivity.
  - exists (data_row ["2"]). split; vm_compute; reflexivity.
Defined.

(** X11. The script reads the fourth to the seventeenth line and the
    [num_pos] lines from the 404th on, and nothing else: two files that
    agree on these lines have the same outcome, whatever their first three
    lines, their lines 18 to 403 and their lines after the data are. *)
Theorem translate_lines_frame (ls ls' : list string) :
  header_lines ls = header_lines ls' ->
  (forall (d : gmap string value) (rows cols len : Z) (i : nat),
      parse_header ls = Ok d -> read_dimensions d = Ok (rows, cols, len) ->
      (i < Z.to_nat (rows * cols))%nat ->
      ls !! (num_headers + i)%nat = ls' !! (num_headers + i)%nat) ->
  translate_lines ls = translate_lines ls'.
Proof.
  intros Hheader Hdata.
  assert (Hparse : parse_header ls' = parse_header ls)
    by (unfold parse_header; rewrite Hheader; reflexivity).
  unfold translate_lines. rewrite Hparse.
  destruct (parse_header ls) as [d|] eqn:Hd; [|reflexivity]. simpl.
  destruct (read_dimensions d) as [[[rows cols] len]|] eqn:Hdim; [|reflexivity].
  simpl. rewrite (read_grid_ext ls ls' (rows * cols) len); [reflexivity|].
  intros i Hi. exact (Hdata d rows cols len i eq_refl Hdim Hi).
Qed.

Lemma translate_lines_frame_witness :
  translate_lines (sample_header "1" "2" "3"
                   ++ [data_row ["1"; "2"; "3"]; data_row ["4"; "5"; "6"]])
  = translate_lines ((replicate 3 "any text"
                      ++ [header_line "x-pixels" "2"; header_line "y-pixels" "1";
                          header_line "z-points" "3"]
                      ++ replicate 11 (header_line "bias" "0.5")
                      ++ replicate 386 "not read")
                     ++ [data_row ["1"; "2"; "3"]; data_row ["4"; "5"; "6"]]).
Proof.
  apply translate_lines_frame.
  - reflexivity.
  - intros d rows cols len i _ _ _.
    rewrite !lookup_app_r by (vm_compute; lia).
    reflexivity.
Defined.

(** X12. In a grid that was read, row [i] holds the parsed tokens of line
    [403 + i] when these are [spectra_length] many, and otherwise the
    single parsed token of that line repeated [spectra_length] times. *)
Theorem grid_row_contents (string_lines : list string) (num_pos len : Z)
    (g : list (list spec_float)) (i : nat) (line : string) :
  read_grid string_lines num_pos len = Ok g ->
  (i < Z.to_nat num_pos)%nat ->
  string_lines !! (num_headers + i)%nat = Some line ->
  exists arr : list spec_float,
    np_array_float32 (string_spectrum line) = Ok arr
    /\ ((length arr = Z.to_nat len /\ g !! i = Some arr)
        \/ (length arr <> Z.to_nat len
            /\ exists x : spec_float,
                 arr = [x] /\ g !! i = Some (replicate (Z.to_nat len) x))).
Proof.
  intros Hg Hi Hline.
  destruct (read_grid_ok_inv _ _ _ _ Hg) as (Hallowed & Hacc).
  destruct (read_grid_accepted _ _ _ Hallowed Hacc) as (g' & Hg' & _ & Hrows).
  assert (g' = g) as -> by congruence.
  rewrite (Hrows i line Hi Hline).
  destruct (Hacc i Hi) as (line' & Hline' & Hok).
  assert (line' = line) as -> by congruence.
  unfold row_accepted in Hok. unfold stored_row.
  destruct (np_array_float32 (string_spectrum line)) as [arr|]; [|discriminate].
  exists arr. split; [reflexivity|].
  destruct (Nat.eqb_spec (length arr) (Z.to_nat len)) as [Heq|Hne];
    [left; auto|].
  right. split; [exact Hne|]. simpl in Hok. apply Nat.eqb_eq in Hok.
  destruct arr as [|x [|y arr]]; try discriminate. eauto.
Qed.

Lemma grid_row_contents_witness :
  exists (g : list (list spec_float)) (x : spec_float),
    read_grid (sample_header "1" "1" "2" ++ [data_row ["7"]]) 1 2 = Ok g
    /\ g !! 0%nat = Some [x; x].
Proof.
  assert (Hg : exists g, read_grid (sample_header "1" "1" "2" ++ [data_row ["7"]]) 1 2
                         = Ok g)
    by (eexists; vm_compute; reflexivity).
  destruct Hg as [g Hg].
  destruct (grid_row_contents _ 1 2 g 0%nat (data_row ["7"]) Hg)
    as (arr & Harr & [[Hlen _]|(_ & x & -> & Hrow)]).
  - simpl. lia.
  - vm_compute. reflexivity.
  - vm_compute in Harr. injection Harr as <-. simpl in Hlen. discriminate.
  - exists g, x. split; [exact Hg | exact Hrow].
Defined.

(** ** Loading the file *)

Lemma universal_newlines_cons (c a : ascii) (s : string) :
  universal_newlines (String c (String a s))
  = if Ascii.eqb c carriage_return then
      if Ascii.eqb a Py.newline
      then String Py.newline (universal_newlines s)
      else String Py.newline (universal_newlines (String a s))
    else String c (universal_newlines (String a s)).
Proof. reflexivity. Qed.

Lemma universal_newlines_no_return (s : string) :
  Py.contains carriage_return (universal_newlines s) = false.
Proof.
  assert (H : Py.contains carriage_return (universal_newlines s) = false
              /\ forall c : ascii,
                   Py.contains carriage_return (universal_newlines (String c s))
                   = false).
  { induction s as [|a s [IH1 IH2]].
    - split; [reflexivity|]. intros c. simpl.
      destruct (Ascii.eqb c carriage_return) eqn:Hc; [reflexivity|].
      simpl. rewrite Hc. reflexivity.
    - split; [apply IH2|]. intros c. rewrite universal_newlines_cons.
      destruct (Ascii.eqb c carriage_return) eqn:Hc.
      + destruct (Ascii.eqb a Py.newline); cbn [Py.contains];
          [rewrite IH1 | rewrite IH2]; reflexivity.
      + cbn [Py.contains]. rewrite Hc, IH2. reflexivity. }
  exact (proj1 H).
Qed.

Lemma universal_newlines_id (s : string) :
  Py.contains carriage_return s = false -> universal_newlines s = s.
Proof.
  induction s as [|c s IH]; [reflexivity|]. simpl. intros H.
  apply orb_false_iff in H as [Hc Hs]. rewrite Hc, (IH Hs). reflexivity.
Qed.

Lemma keepends_concat (parts : list string) :
  parts <> [] -> concat_lines (keepends parts) = Py.join Py.newline parts.
Proof.
  induction parts as [|p rest IH]; intros Hne; [congruence|].
  destruct rest as [|q rest].
  - simpl. destruct p; [reflexivity|]. simpl. apply append_nil_r.
  - change (keepends (p :: q :: rest))
      with ((p +:+ String Py.newline "") :: keepends (q :: rest)).
    change (Py.join Py.newline (p :: q :: rest))
      with (p +:+ String Py.newline (Py.join Py.newline (q :: rest))).
    unfold concat_lines in *. cbn [foldr].
    rewrite IH by discriminate. rewrite append_assoc. reflexivity.
Qed.

(** X13. Loading loses nothing: the lines of [readlines], put end to end,
    are the text of the file with its line endings normalised to line
    feeds, and the text itself when it has no carriage return. *)
Theorem readlines_concat (text : string) :
  concat_lines (readlines text) = universal_newlines text
  /\ (Py.contains carriage_return text = false ->
      concat_lines (readlines text) = text).
Proof.
  assert (H : concat_lines (readlines text) = universal_newlines text).
  { unfold readlines. rewrite keepends_concat by apply split_not_nil.
    apply join_split. }
  split; [exact H|]. intros Hcr. rewrite H. apply universal_newlines_id, Hcr.
Qed.

Lemma readlines_concat_witness :
  concat_lines (readlines ("a" +:+ String Py.newline "b"))
  = "a" +:+ String Py.newline "b".
Proof.
  apply (proj2 (readlines_concat ("a" +:+ String Py.newline "b"))).
  reflexivity.
Defined.

Lemma keepends_lines (parts : list string) (line : string) :
  line ∈ keepends parts ->
  exists body : string,
    body ∈ parts
    /\ (line = body +:+ String Py.newline "" \/ (line = body /\ body <> "")).
Proof.
  induction parts as [|p rest IH]; intros Hin; [inversion Hin|].
  destruct rest as [|q rest].
  - simpl in Hin. destruct p as [|c p]; [inversion Hin|].
    apply list_elem_of_singleton in Hin as ->.
    eexists. split; [left|]. right. split; [reflexivity | discriminate].
  - change (keepends (p :: q :: rest))
      with ((p +:+ String Py.newline "") :: keepends (q :: rest)) in Hin.
    apply elem_of_cons in Hin as [->|Hin].
    + exists p. split; [left | left; reflexivity].
    + destruct (IH Hin) as (body & Hbody & Hline).
      exists body. split; [right; exact Hbody | exact Hline].
Qed.

(** X14. Every line that [readlines] returns is not empty, holds no
    carriage return, and holds no line feed except as its last character;
    a line without a final line feed has none at all. *)
Theorem readlines_lines (text line : string) :
  line ∈ readlines text ->
  line <> ""
  /\ Py.contains carriage_return line = false
  /\ exists body : string,
       Py.contains Py.newline body = false
       /\ (line = body +:+ String Py.newline "" \/ line = body).
Proof.
  intros Hin. unfold readlines in Hin.
  apply keepends_lines in Hin as (body & Hbody & Hline).
  pose proof (split_pieces Py.newline (universal_newlines text)) as Hnl.
  pose proof (split_pieces_without carriage_return Py.newline
                (universal_newlines text)
                (universal_newlines_no_return text)) as Hcr.
  rewrite Forall_forall in Hnl, Hcr.
  specialize (Hnl body Hbody). specialize (Hcr body Hbody).
  destruct Hline as [->|[-> Hne]].
  - split; [destruct body; discriminate|]. split.
    + rewrite contains_append, Hcr. reflexivity.
    + exists body. auto.
  - split; [exact Hne|]. split; [exact Hcr|]. exists body. auto.
Qed.

Lemma readlines_lines_witness :
  ("b" +:+ String Py.newline "") <> ""
  /\ Py.contains carriage_return ("b" +:+ String Py.newline "") = false.
Proof.
  destruct (readlines_lines
              ("a" +:+ String carriage_return (String Py.newline "b")
               +:+ String carriage_return "c")
              ("b" +:+ String Py.newline "")) as (H1 & H2 & _).
  - vm_compute. right. left.
  - split; assumption.
Defined.

(** ** The bias axis, continued *)



(** X18. In binary64 as well, an axis has [spectra_length] values, and the
    last of two values or more is exactly the float of [max_v]: it is
    stored, not computed. *)
Theorem axis_binary64_last (mv len : Z) (axis : list spec_float) :
  volt_vec_b64 mv len = Ok axis ->
  length axis = Z.to_nat len
  /\ (2 <= len -> last axis = Some (Float.of_Z (1 * mv))).
Proof.
  intros H. unfold volt_vec_b64, linspace_b64 in H. split.
  - eapply linspace_length, H.
  - intros Hlen. eapply linspace_last; [exact H | exact Hlen].
Qed.

Lemma axis_binary64_last_witness :
  exists axis : list spec_float,
    volt_vec_b64 1 7 = Ok axis /\ length axis = 7%nat
    /\ last axis = Some (Float.of_Z 1).
Proof.
  assert (Ha : exists axis, volt_vec_b64 1 7 = Ok axis)
    by (eexists; vm_compute; reflexivity).
  destruct Ha as [axis H]. exists axis.
  destruct (axis_binary64_last 1 7 axis H) as [Hlen Hlast].
  split; [exact H|]. split; [exact Hlen | apply Hlast; lia].
Defined.

(** ** The name of the translated file *)

Lemma length_append (a b : string) :
  String.length (a +:+ b) = (String.length a + String.length b)%nat.
Proof.
  induction a as [|c a IH]; [reflexivity|].
  rewrite append_cons. simpl. rewrite IH. reflexivity.
Qed.

Lemma take_append (a b : string) : Path.take (String.length a) (a +:+ b) = a.
Proof.
  induction a as [|c a IH]; [destruct b; reflexivity|].
  rewrite append_cons. simpl. rewrite IH. reflexivity.
Qed.

Lemma drop_append (a b : string) : Path.drop (String.length a) (a +:+ b) = b.
Proof.
  induction a as [|c a IH]; [destruct b; reflexivity|].
  rewrite append_cons. simpl. exact IH.
Qed.

Lemma contains_take (c : ascii) (n : nat) (s : string) :
  Py.contains c s = false -> Py.contains c (Path.take n s) = false.
Proof.
  revert n. induction s as [|a s IH]; intros [|n] H; try reflexivity.
  simpl in *. apply orb_false_iff in H as [Ha Hs].
  rewrite Ha, (IH n Hs). reflexivity.
Qed.

Lemma rfind_none (c : ascii) (s : string) :
  Py.contains c s = false -> Path.rfind c s = -1.
Proof.
  induction s as [|a s IH]; [reflexivity|]. simpl. intros H.
  apply orb_false_iff in H as [Ha Hs]. rewrite (IH Hs), Ha. reflexivity.
Qed.

Lemma rfind_last (c : ascii) (a b : string) :
  Py.contains c b = false ->
  Path.rfind c (a +:+ String c b) = Z.of_nat (String.length a).
Proof.
  intros Hb. induction a as [|x a IH].
  - rewrite append_nil. simpl. rewrite (rfind_none c b Hb), Ascii.eqb_refl.
    reflexivity.
  - rewrite append_cons. cbn [Path.rfind]. rewrite IH.
    replace (0 <=? Z.of_nat (String.length a)) with true
      by (symmetry; apply Z.leb_le; lia).
    cbn [String.length]. lia.
Qed.

(** A path with a separator ends in a separator and a name without one. *)
Lemma last_sep (c : ascii) (s : string) :
  Py.contains c s = true ->
  exists a b : string, s = a +:+ String c b /\ Py.contains c b = false.
Proof.
  induction s as [|x s IH]; [discriminate|]. simpl. intros H.
  destruct (Py.contains c s) eqn:Hs.
  - destruct (IH eq_refl) as (a & b & -> & Hb).
    exists (String x a), b. split; [reflexivity | exact Hb].
  - rewrite orb_false_r in H. apply Ascii.eqb_eq in H as ->.
    exists "", s. split; [reflexivity | exact Hs].
Qed.

Lemma all_sep_append (a b : string) :
  Path.all_sep (a +:+ b) = Path.all_sep a && Path.all_sep b.
Proof.
  induction a as [|c a IH]; [reflexivity|].
  rewrite append_cons. simpl. rewrite IH. apply andb_assoc.
Qed.

Lemma rstrip_char_append_sep (a : string) :
  Path.rstrip_char Path.sep (a +:+ String Path.sep "")
  = Path.rstrip_char Path.sep a.
Proof.
  induction a as [|c a IH]; [reflexivity|].
  rewrite append_cons. simpl. rewrite IH. reflexivity.
Qed.

Lemma rstrip_char_all_sep (a : string) :
  Path.all_sep a = true -> Path.rstrip_char Path.sep a = "".
Proof.
  induction a as [|c a IH]; [reflexivity|]. simpl. intros H.
  apply andb_true_iff in H as [Hc Ha]. rewrite (IH Ha), Hc. reflexivity.
Qed.

Lemma ends_with_sep_cons (c : ascii) (s : string) :
  s <> "" -> Path.ends_with_sep (String c s) = Path.ends_with_sep s.
Proof. destruct s; [congruence | reflexivity]. Qed.

Lemma rstrip_char_not_all_sep (a : string) :
  Path.all_sep a = false ->
  Path.rstrip_char Path.sep a <> ""
  /\ Path.ends_with_sep (Path.rstrip_char Path.sep a) = false.
Proof.
  induction a as [|c a IH]; [discriminate|]. simpl. intros H.
  destruct (Path.all_sep a) eqn:Ha.
  - rewrite andb_true_r in H. rewrite (rstrip_char_all_sep a Ha), H.
    split; [discriminate | simpl; exact H].
  - destruct (IH eq_refl) as [Hne Hend].
    destruct (Path.rstrip_char Path.sep a) as [|x r] eqn:Hr; [congruence|].
    split; [discriminate|].
    rewrite ends_with_sep_cons by discriminate. exact Hend.
Qed.

Lemma rstrip_char_id (s : string) :
  Path.ends_with_sep s = false -> Path.rstrip_char Path.sep s = s.
Proof.
  induction s as [|c s IH]; [reflexivity|]. intros H.
  destruct s as [|x s].
  - simpl in *. rewrite H. reflexivity.
  - rewrite ends_with_sep_cons in H by discriminate. specialize (IH H).
    change (Path.rstrip_char Path.sep (String c (String x s)))
      with (match Path.rstrip_char Path.sep (String x s) with
            | EmptyString =>
                if Ascii.eqb c Path.sep then EmptyString else String c EmptyString
            | String a r => String c (String a r)
            end).
    rewrite IH. reflexivity.
Qed.

Lemma all_sep_ends (s : string) :
  s <> "" -> Path.all_sep s = true -> Path.ends_with_sep s = true.
Proof.
  induction s as [|c s IH]; [congruence|]. intros _ H. simpl in H.
  apply andb_true_iff in H as [Hc Hs].
  destruct s as [|x s]; [exact Hc|].
  rewrite ends_with_sep_cons by discriminate. apply IH; [discriminate | exact Hs].
Qed.

Lemma ends_with_sep_inv (s : string) :
  Path.ends_with_sep s = true -> exists a : string, s = a +:+ String Path.sep "".
Proof.
  induction s as [|c s IH]; [discriminate|]. intros H.
  destruct s as [|x s].
  - simpl in H. apply Ascii.eqb_eq in H as ->. exists "". reflexivity.
  - rewrite ends_with_sep_cons in H by discriminate.
    destruct (IH H) as [a ->]. exists (String c a). reflexivity.
Qed.

(** [os.path.split] on a path without a separator, and on a path cut at
    its last separator. *)
Lemma path_split_plain (p : string) :
  Py.contains Path.sep p = false -> Path.split p = ("", p).
Proof.
  intros H. unfold Path.split. rewrite (rfind_none _ _ H). simpl.
  destruct p; reflexivity.
Qed.

Lemma path_split_last (a b : string) :
  Py.contains Path.sep b = false ->
  Path.split (a +:+ String Path.sep b)
  = (if Path.all_sep a then a +:+ String Path.sep ""
     else Path.rstrip_char Path.sep a, b).
Proof.
  intros Hb. unfold Path.split. rewrite (rfind_last _ a b Hb).
  replace (Z.to_nat (Z.of_nat (String.length a) + 1))
    with (String.length (a +:+ String Path.sep "")) by (rewrite length_append; simpl; lia).
  replace (a +:+ String Path.sep b) with ((a +:+ String Path.sep "") +:+ b)
    by (rewrite append_assoc; reflexivity).
  rewrite take_append, drop_append, all_sep_append. simpl Path.all_sep.
  rewrite andb_true_r.
  replace (Path.is_empty (a +:+ String Path.sep "")) with false
    by (destruct a; reflexivity).
  simpl negb. cbn [andb].
  destruct (Path.all_sep a); [reflexivity|].
  simpl. rewrite rstrip_char_append_sep. reflexivity.
Qed.

(** The heads that [os.path.split] returns. *)
Lemma path_split_head (p : string) :
  let head := fst (Path.split p) in
  head = ""
  \/ (head <> "" /\ Path.all_sep head = true)
  \/ (head <> "" /\ Path.ends_with_sep head = false).
Proof.
  destruct (Py.contains Path.sep p) eqn:Hp.
  - destruct (last_sep _ _ Hp) as (a & b & -> & Hb).
    rewrite (path_split_last a b Hb). simpl.
    destruct (Path.all_sep a) eqn:Ha.
    + right. left. split; [destruct a; discriminate|].
      rewrite all_sep_append, Ha. reflexivity.
    + right. right. apply rstrip_char_not_all_sep, Ha.
  - rewrite (path_split_plain p Hp). left. reflexivity.
Qed.

Lemma path_split_tail (p : string) :
  Py.contains Path.sep (snd (Path.split p)) = false.
Proof.
  destruct (Py.contains Path.sep p) eqn:Hp.
  - destruct (last_sep _ _ Hp) as (a & b & -> & Hb).
    rewrite (path_split_last a b Hb). exact Hb.
  - rewrite (path_split_plain p Hp). exact Hp.
Qed.

Lemma path_split_join (folder name : string) :
  (folder = ""
   \/ (folder <> "" /\ Path.all_sep folder = true)
   \/ (folder <> "" /\ Path.ends_with_sep folder = false)) ->
  Py.contains Path.sep name = false ->
  Path.split (Path.join folder name) = (folder, name).
Proof.
  intros Hfolder Hname. unfold Path.join.
  replace (Path.starts_with_sep name) with false.
  2:{ destruct name as [|c name]; [reflexivity|]. simpl in *.
      apply orb_false_iff in Hname as [Hc _]. rewrite Hc. reflexivity. }
  destruct Hfolder as [->|[[Hne Hall]|[Hne Hend]]].
  - simpl. rewrite append_nil. apply path_split_plain, Hname.
  - rewrite (all_sep_ends folder Hne Hall), orb_true_r.
    destruct (ends_with_sep_inv folder (all_sep_ends folder Hne Hall)) as [a ->].
    rewrite append_assoc. change (String Path.sep "" +:+ name) with (String Path.sep name).
    rewrite (path_split_last a name Hname).
    rewrite all_sep_append in Hall. apply andb_true_iff in Hall as [Ha _].
    rewrite Ha. reflexivity.
  - rewrite Hend, orb_false_r.
    replace (Path.is_empty folder) with false
      by (destruct folder; [congruence | reflexivity]).
    rewrite (path_split_last folder name Hname).
    destruct (Path.all_sep folder) eqn:Hall.
    + rewrite (all_sep_ends folder Hne Hall) in Hend. discriminate.
    + rewrite (rstrip_char_id folder Hend). reflexivity.
Qed.

(** X19. [os.path.split] returns a file name without a separator, and a
    folder that is empty, or made of separators only, or does not end with
    a separator; joining the two and splitting again gives them back. *)
Theorem path_split_parts (p : string) :
  let '(folder_path, file_name) := Path.split p in
  Py.contains Path.sep file_name = false
  /\ (folder_path = ""
      \/ (folder_path <> "" /\ Path.all_sep folder_path = true)
      \/ (folder_path <> "" /\ Path.ends_with_sep folder_path = false))
  /\ Path.split (Path.join folder_path file_name) = (folder_path, file_name).
Proof.
  pose proof (path_split_head p) as Hhead.
  pose proof (path_split_tail p) as Htail.
  destruct (Path.split p) as [folder_path file_name]. simpl in *.
  split; [exact Htail|]. split; [exact Hhead|].
  apply path_split_join; assumption.
Qed.

(** X20. The translated file lies in the folder of the data file: the path
    the script builds splits into the folder of the data file and the
    name of the data file with its last four characters replaced by
    [_.h5]. *)
Theorem h5_path_folder (data_file_path : string) :
  Path.split (h5_path data_file_path)
  = (fst (Path.split data_file_path),
     drop_last_chars 4 (snd (Path.split data_file_path)) +:+ "_.h5").
Proof.
  unfold h5_path.
  pose proof (path_split_head data_file_path) as Hhead.
  pose proof (path_split_tail data_file_path) as Htail.
  destruct (Path.split data_file_path) as [folder_path file_name]. simpl in *.
  rewrite append_assoc. change ("_" +:+ ".h5") with "_.h5".
  apply path_split_join; [exact Hhead|].
  rewrite contains_append. unfold drop_last_chars.
  rewrite (contains_take _ _ _ Htail). reflexivity.
Qed.

(** X21. A data file [stem.ext] with an extension of four characters, dot
    included, is translated to [stem_.h5] in the same folder; a file name
    of four characters or fewer gives [_.h5]. *)
Theorem h5_path_name (folder stem ext : string) :
  Py.contains Path.sep (stem +:+ ext) = false ->
  String.length ext = 4%nat ->
  h5_path (stem +:+ ext) = stem +:+ "_.h5"
  /\ (folder <> "" -> Path.ends_with_sep folder = false ->
      h5_path (folder +:+ String Path.sep (stem +:+ ext))
      = folder +:+ String Path.sep (stem +:+ "_.h5"))
  /\ (forall name : string,
        Py.contains Path.sep name = false -> (String.length name <= 4)%nat ->
        h5_path name = "_.h5").
Proof.
  intros Hname Hext.
  assert (Hdrop : drop_last_chars 4 (stem +:+ ext) = stem).
  { unfold drop_last_chars. rewrite length_append, Hext.
    replace (String.length stem + 4 - 4)%nat with (String.length stem) by lia.
    apply take_append. }
  assert (Hplain : h5_path (stem +:+ ext) = stem +:+ "_.h5").
  { unfold h5_path. rewrite (path_split_plain _ Hname), Hdrop.
    unfold Path.join. rewrite append_assoc. change ("_" +:+ ".h5") with "_.h5".
    simpl Path.is_empty. cbn [orb]. rewrite append_nil.
    replace (Path.starts_with_sep (stem +:+ "_.h5")) with false; [reflexivity|].
    destruct stem as [|c stem]; [reflexivity|].
    rewrite append_cons in Hname. simpl in Hname.
    apply orb_false_iff in Hname as [Hc _].
    rewrite append_cons. simpl. rewrite Hc. reflexivity. }
  split; [exact Hplain|]. split.
  - intros Hne Hend. unfold h5_path.
    rewrite (path_split_last folder _ Hname).
    destruct (Path.all_sep folder) eqn:Hall.
    { rewrite (all_sep_ends folder Hne Hall) in Hend. discriminate. }
    rewrite (rstrip_char_id folder Hend), Hdrop.
    unfold Path.join. rewrite append_assoc. change ("_" +:+ ".h5") with "_.h5".
    rewrite Hend, orb_false_r.
    replace (Path.is_empty folder) with false
      by (destruct folder; [congruence | reflexivity]).
    replace (Path.starts_with_sep (stem +:+ "_.h5")) with false; [reflexivity|].
    destruct stem as [|c stem]; [reflexivity|].
    rewrite append_cons in Hname. simpl in Hname.
    apply orb_false_iff in Hname as [Hc _].
    rewrite append_cons. simpl. rewrite Hc. reflexivity.
  - intros name Hsep Hshort. unfold h5_path, drop_last_chars.
    rewrite (path_split_plain _ Hsep).
    replace (String.length name - 4)%nat with 0%nat by lia.
    destruct name; reflexivity.
Qed.

Lemma h5_path_name_witness :
  h5_path "temp.asc" = "temp_.h5"
  /\ h5_path "/data/run/STS.asc" = "/data/run/STS_.h5".
Proof.
  destruct (h5_path_name "/data/run" "temp" ".asc" eq_refl eq_refl) as (H1 & _ & _).
  destruct (h5_path_name "/data/run" "STS" ".asc" eq_refl eq_refl) as (_ & H2 & _).
  split; [exact H1|]. apply H2; [discriminate | reflexivity].
Defined.

(** ** Loading the file, continued *)

(** X22. Line endings do not matter: a file with carriage returns, alone
    or before a line feed, has the outcome of the same file with line
    feeds in their place. *)
Theorem translate_line_endings (text : string) :
  translate text = translate (universal_newlines text).
Proof.
  unfold translate, readlines.
  rewrite (universal_newlines_id (universal_newlines text))
    by apply universal_newlines_no_return.
  reflexivity.
Qed.

Lemma split_concat_lines (bodies : list string) :
  Forall (fun b => Py.contains Py.newline b = false) bodies ->
  Py.split Py.newline
    (concat_lines (map (fun b => b +:+ String Py.newline "") bodies))
  = bodies ++ [""].
Proof.
  induction bodies as [|b rest IH]; intros H; [reflexivity|].
  inversion H as [|? ? Hb Hrest]; subst.
  unfold concat_lines in *. cbn [map foldr].
  rewrite append_assoc.
  change (String Py.newline "" +:+ ?t) with (String Py.newline t).
  rewrite split_append_sep by exact Hb. rewrite (IH Hrest). reflexivity.
Qed.

Lemma keepends_terminated (bodies : list string) :
  keepends (bodies ++ [""]) = map (fun b => b +:+ String Py.newline "") bodies.
Proof.
  induction bodies as [|b rest IH]; [reflexivity|].
  cbn [app map]. rewrite <- IH.
  destruct (rest ++ [""]) as [|q tl] eqn:E; [|reflexivity].
  destruct rest; discriminate.
Qed.

Lemma contains_concat_lines (c : ascii) (ls : list string) :
  Forall (fun l => Py.contains c l = false) ls ->
  Py.contains c (concat_lines ls) = false.
Proof.
  induction ls as [|l rest IH]; intros H; [reflexivity|].
  inversion H; subst. unfold concat_lines in *. cbn [foldr].
  rewrite contains_append. apply orb_false_iff. auto.
Qed.

(** X23. A text made of lines that each end with a line feed, and hold no
    other line feed and no carriage return, is read back as these lines. *)
Theorem readlines_of_lines (bodies : list string) :
  Forall (fun b => Py.contains Py.newline b = false
                   /\ Py.contains carriage_return b = false) bodies ->
  readlines (concat_lines (map (fun b => b +:+ String Py.newline "") bodies))
  = map (fun b => b +:+ String Py.newline "") bodies.
Proof.
  intros H. unfold readlines.
  rewrite universal_newlines_id.
  - rewrite split_concat_lines by (eapply Forall_impl; [exact H | intros b [Hb _]; exact Hb]).
    apply keepends_terminated.
  - apply contains_concat_lines. apply Forall_map.
    eapply Forall_impl; [exact H|]. intros b [_ Hb]. simpl.
    rewrite contains_append, Hb. reflexivity.
Qed.

Lemma readlines_of_lines_witness :
  readlines (concat_lines (map (fun b => b +:+ String Py.newline "")
                               ["# x-pixels = 2"; ""; "1.5"]))
  = map (fun b => b +:+ String Py.newline "") ["# x-pixels = 2"; ""; "1.5"].
Proof.
  apply readlines_of_lines. repeat constructor.
Defined.
